(** * Financial calculation engine of the dashboard: model and properties

    The calculators live inside the React components
    [DebtStrategyCard], [FIREProgressCard], [GoalsTracker] and
    [FinancialHealthScore].  They are embedded here as functions over an
    idealised model of JavaScript numbers: a finite number is a real and
    arithmetic on finite numbers is exact (no rounding, no overflow, no
    signed zero); [Infinity], [-Infinity] and [NaN] are kept as values of
    their own, with the propagation rules of the language.  Record fields
    that the data model of the application fills with ordinary amounts
    are finite numbers, i.e. reals.

    The language itself computes on binary64 numbers and rounds after
    every operation.  A value computed exactly differs from the rounded
    one in its last digits only, but a comparison or a ceiling whose exact
    operands sit at a tie can fall on the other side once they are
    rounded.  The module [Binary64] repeats the arithmetic of the places
    where this happens on primitive binary64 numbers and the section on
    ties at the end evaluates both versions there; the general properties
    that depend on such a comparison are stated away from the tie. *)

From Stdlib Require Import Reals Lra Lia ZArith Bool String.
From Stdlib Require Import List Permutation Sorted.
From Stdlib Require Import PrimFloat SpecFloat FloatOps.
Import ListNotations.

(** ** JavaScript numbers *)

Module JS.

Inductive number : Type :=
| NaN
| NegInfinity
| Fin (x : R)
| Infinity.

Definition is_finite (a : number) : Prop :=
  match a with Fin _ => True | _ => False end.

Definition is_infinite (a : number) : Prop :=
  match a with Infinity | NegInfinity => True | _ => False end.

(** Sign of a finite number; zero is the positive zero. *)
Inductive sign : Type := Neg | Zero | Pos.

Definition Rsign (x : R) : sign :=
  if Rlt_dec x 0 then Neg else if Rlt_dec 0 x then Pos else Zero.

Definition neg (a : number) : number :=
  match a with
  | NaN => NaN
  | NegInfinity => Infinity
  | Fin x => Fin (- x)
  | Infinity => NegInfinity
  end.

Definition add (a b : number) : number :=
  match a, b with
  | NaN, _ | _, NaN => NaN
  | Infinity, NegInfinity | NegInfinity, Infinity => NaN
  | Infinity, _ | _, Infinity => Infinity
  | NegInfinity, _ | _, NegInfinity => NegInfinity
  | Fin x, Fin y => Fin (x + y)
  end.

Definition sub (a b : number) : number := add a (neg b).

(** An infinity multiplied or divided by a finite number of sign [s]. *)
Definition scale_inf (i : number) (s : sign) : number :=
  match s with
  | Zero => NaN
  | Pos => i
  | Neg => neg i
  end.

Definition mul (a b : number) : number :=
  match a, b with
  | NaN, _ | _, NaN => NaN
  | Fin x, Fin y => Fin (x * y)
  | Fin x, i => scale_inf i (Rsign x)
  | i, Fin y => scale_inf i (Rsign y)
  | Infinity, Infinity | NegInfinity, NegInfinity => Infinity
  | Infinity, NegInfinity | NegInfinity, Infinity => NegInfinity
  end.

Definition div (a b : number) : number :=
  match a, b with
  | NaN, _ | _, NaN => NaN
  | Fin x, Fin y =>
      if Req_dec_T y 0 then
        match Rsign x with
        | Zero => NaN
        | Pos => Infinity
        | Neg => NegInfinity
        end
      else Fin (x / y)
  | Fin _, _ => Fin 0
  | i, Fin y => if Rlt_dec y 0 then neg i else i
  | _, _ => NaN
  end.

(** The relational operators; every comparison with [NaN] is false. *)
Definition le (a b : number) : bool :=
  match a, b with
  | NaN, _ | _, NaN => false
  | NegInfinity, _ | _, Infinity => true
  | Fin x, Fin y => if Rle_dec x y then true else false
  | _, _ => false
  end.

Definition lt (a b : number) : bool :=
  match a, b with
  | NaN, _ | _, NaN => false
  | Infinity, _ | _, NegInfinity => false
  | Fin x, Fin y => if Rlt_dec x y then true else false
  | _, _ => true
  end.

Definition ge (a b : number) : bool := le b a.
Definition gt (a b : number) : bool := lt b a.

(** [Math.log]. *)
Definition Math_log (a : number) : number :=
  match a with
  | NaN | NegInfinity => NaN
  | Infinity => Infinity
  | Fin x =>
      match Rsign x with
      | Neg => NaN
      | Zero => NegInfinity
      | Pos => Fin (ln x)
      end
  end.

(** [Math.ceil], [Math.round] (halves go up) and [Math.abs]. *)
Definition Math_ceil (a : number) : number :=
  match a with
  | Fin x => Fin (IZR (Zceil x))
  | _ => a
  end.

Definition Math_round (a : number) : number :=
  match a with
  | Fin x => Fin (IZR (Zfloor (x + 1 / 2)))
  | _ => a
  end.

Definition Math_abs (a : number) : number :=
  match a with
  | NaN => NaN
  | Fin x => Fin (Rabs x)
  | _ => Infinity
  end.

(** [Math.min] and [Math.max] of two arguments. *)
Definition Math_min (a b : number) : number :=
  match a, b with
  | NaN, _ | _, NaN => NaN
  | _, _ => if le a b then a else b
  end.

Definition Math_max (a b : number) : number :=
  match a, b with
  | NaN, _ | _, NaN => NaN
  | _, _ => if le a b then b else a
  end.

(** [Math.pow] at an exponent that is a non-negative integer, the only
    kind of exponent the calculators pass. *)
Definition Math_pow (a : number) (n : nat) : number :=
  match n with
  | O => Fin 1
  | S _ =>
      match a with
      | NaN => NaN
      | Fin x => Fin (x ^ n)
      | Infinity => Infinity
      | NegInfinity => if Nat.even n then Infinity else NegInfinity
      end
  end.

(** Truthiness of a number, as in [x ? a : b]. *)
Definition truthy (a : number) : bool :=
  match a with
  | NaN => false
  | Fin x => if Req_dec_T x 0 then false else true
  | _ => true
  end.

End JS.

Import JS.
Coercion Fin : R >-> number.

Declare Scope js_scope.
Delimit Scope js_scope with js.
Bind Scope js_scope with number.
Infix "+" := add : js_scope.
Infix "-" := sub : js_scope.
Infix "*" := mul : js_scope.
Infix "/" := div : js_scope.
Infix "<=?" := le : js_scope.
Infix "<?" := lt : js_scope.
Infix ">=?" := ge : js_scope.
Infix ">?" := gt : js_scope.

Open Scope R_scope.

(** ** Data model ([types/financial]) *)

(** Records carry the fields the calculators read; amounts are finite
    numbers. *)
Inductive DebtType : Type :=
| credit_card | student_loan | mortgage | auto_loan | personal_loan
| other_debt.

Record Debt : Type := mkDebt {
  debt_name : string;
  debt_type : DebtType;
  balance : R;
  interestRate : R;
  minimumPayment : R
}.

(** ** DebtStrategyCard: months to payoff *)

(** Lines 34-40, in exact arithmetic.  The comparison of line 37 and the
    ceiling of line 39 are where rounding can matter: when the payment
    equals balance * monthlyRate, or when the quotient of the logarithms is
    an integer, the binary64 computation ([Binary64.calculatePayoffTime])
    can take the other side. *)
Definition calculatePayoffTime (debt : Debt) (extraPayment : R) : number :=
  let monthlyRate := (interestRate debt / 100 / 12)%js in
  let payment := (minimumPayment debt + extraPayment)%js in
  if (payment <=? balance debt * monthlyRate)%js then Infinity
  else
    let months :=
      (Math_log (payment / (payment - balance debt * monthlyRate))
       / Math_log (1 + monthlyRate))%js in
    Math_ceil months.

(** ** DebtStrategyCard: ordering of the debts *)

Inductive Strategy : Type := avalanche | snowball.

(** [Array.prototype.sort] with a comparison function.  The language
    requires the sort to be stable and, for a consistent comparison
    function, leaves the result no freedom; it is taken here as the stable
    insertion sort.  An element moves past another one exactly when the
    comparison function returns a number greater than zero. *)
Section ArraySort.
Variable A : Type.
Variable comparefn : A -> A -> number.

Fixpoint insert (x : A) (l : list A) : list A :=
  match l with
  | [] => [x]
  | y :: l' => if (comparefn x y >? 0)%js then y :: insert x l' else x :: l
  end.

Definition sort (l : list A) : list A := fold_right insert [] l.
End ArraySort.

Arguments insert {A} comparefn x l.
Arguments sort {A} comparefn l.

Definition compareDebts (strategy : Strategy) (a b : Debt) : number :=
  match strategy with
  | avalanche => (interestRate b - interestRate a)%js
  | snowball => (balance a - balance b)%js
  end.

Definition sortedDebts (strategy : Strategy) (debts : list Debt) : list Debt :=
  sort (compareDebts strategy) debts.

(** [Array.prototype.reduce] is [fold_left]. *)
Definition totalDebt (debts : list Debt) : number :=
  fold_left (fun sum debt => (sum + balance debt)%js) debts (Fin 0).

Definition totalMinimumPayment (debts : list Debt) : number :=
  fold_left (fun sum debt => (sum + minimumPayment debt)%js) debts (Fin 0).

Definition weightedAPR (debts : list Debt) : number :=
  (fold_left (fun sum debt => (sum + interestRate debt * balance debt)%js)
     debts (Fin 0)
   / totalDebt debts)%js.

(** ** DebtStrategyCard: the payoff plan *)

(** [Array.prototype.map] with the index as second argument. *)
Section MapIndex.
Variables A B : Type.
Variable f : A -> nat -> B.

Fixpoint mapi_from (index : nat) (l : list A) : list B :=
  match l with
  | [] => []
  | x :: l' => f x index :: mapi_from (S index) l'
  end.

Definition mapi (l : list A) : list B := mapi_from 0 l.
End MapIndex.

Arguments mapi_from {A B} f index l.
Arguments mapi {A B} f l.

Record PlanEntry : Type := mkPlanEntry {
  plan_debt : Debt;
  payoffOrder : nat;
  monthsToPayoff : number;
  plan_extraPayment : R
}.

Definition extraPayment : R := 500.
Definition remainingExtra : R := extraPayment.

Definition payoffPlan (strategy : Strategy) (debts : list Debt)
  : list PlanEntry :=
  mapi (fun debt index =>
          let extra := if Nat.eqb index 0 then remainingExtra else 0 in
          let months := calculatePayoffTime debt extra in
          {| plan_debt := debt;
             payoffOrder := index + 1;
             monthsToPayoff := months;
             plan_extraPayment := extra |})
       (sortedDebts strategy debts).

Definition sum_extra (plan : list PlanEntry) : R :=
  fold_right (fun e acc => plan_extraPayment e + acc) 0 plan.

(** ** FIREProgressCard: growth projection *)

(** [yearsToRetirement] bounds a counting loop and is a natural number. *)
Record FIREMetrics : Type := mkFIREMetrics {
  currentAge : R;
  retirementAge : R;
  currentSavings : R;
  monthlyContribution : R;
  expectedReturn : R;
  inflationRate : R;
  targetRetirementAmount : R;
  yearsToRetirement : nat;
  progressPercentage : R
}.

(** [years] is the loop counter of [projectionData]. *)
Definition calculateFutureValue (metrics : FIREMetrics) (years : nat)
  : number :=
  let r := (expectedReturn metrics / 100 / 12)%js in
  let n := (years * 12)%nat in
  let pmt := monthlyContribution metrics in
  let pv := currentSavings metrics in
  let futureValue :=
    (pv * Math_pow (1 + r) n + pmt * ((Math_pow (1 + r) n - 1) / r))%js in
  Math_round futureValue.

Record ProjectionPoint : Type := mkProjectionPoint {
  point_year : number;
  Current_Path : number;
  Target : number;
  With_Extra : number
}.

Definition projectionPoint (metrics : FIREMetrics) (year : nat)
  : ProjectionPoint :=
  {| point_year := (currentAge metrics + INR year)%js;
     Current_Path := calculateFutureValue metrics year;
     Target := targetRetirementAmount metrics;
     With_Extra :=
       (calculateFutureValue metrics year
        + 500 * 12 * INR year * Math_pow 1.07 year)%js |}.

(** The loop [for (year = 0; year <= yearsToRetirement + 5; year++)]. *)
Definition projectionData (metrics : FIREMetrics) : list ProjectionPoint :=
  map (projectionPoint metrics) (seq 0 (yearsToRetirement metrics + 5 + 1)).

(** ** GoalsTracker: monthly amount needed *)

Inductive Priority : Type := high | medium | low.

Inductive GoalCategory : Type :=
| emergency_fund | retirement | purchase | debt_payoff | investment
| other_goal.

Section Goals.
(** Dates and [differenceInDays] come from the [date-fns] package. *)
Variable Date : Type.
Variable differenceInDays : Date -> Date -> Z.

Record FinancialGoal : Type := mkGoal {
  goal_id : string;
  goal_name : string;
  targetAmount : R;
  currentAmount : R;
  targetDate : Date;
  priority : Priority;
  category : GoalCategory
}.

(** What a call observes besides its arguments: the system clock. *)
Record World : Type := mkWorld { clock : Date }.

(** [new Date()] reads the clock. *)
Definition new_Date (w : World) : Date := clock w.

Definition calculateMonthlyNeeded (w : World) (goal : FinancialGoal)
  : number :=
  let remaining := (targetAmount goal - currentAmount goal)%js in
  let daysUntilTarget :=
    IZR (differenceInDays (targetDate goal) (new_Date w)) in
  let monthsRemaining := Math_max 1 (daysUntilTarget / 30)%js in
  (remaining / monthsRemaining)%js.
End Goals.

Arguments mkGoal {Date} goal_id goal_name targetAmount currentAmount
  targetDate priority category.
Arguments targetAmount {Date} f.
Arguments currentAmount {Date} f.
Arguments targetDate {Date} f.
Arguments mkWorld {Date} clock.
Arguments clock {Date} w.
Arguments new_Date {Date} w.
Arguments calculateMonthlyNeeded {Date} differenceInDays w goal.

(** Time values in milliseconds since the epoch, and [differenceInDays] in
    a zone without daylight-saving shifts: the number of full days between
    the two instants, truncated towards zero. *)
Definition ms_per_day : Z := 86400000.

Definition differenceInDays_ms (dateLeft dateRight : Z) : Z :=
  Z.quot (dateLeft - dateRight) ms_per_day.

(** ** FinancialHealthScore *)

(** Of the profile, the fields the scorer reads. *)
Record Income : Type := mkIncome {
  income_source : string;
  income_amount : R;
  isActive : bool
}.

Record Expense : Type := mkExpense {
  expense_category : string;
  expense_name : string;
  expense_amount : R;
  isEssential : bool
}.

Inductive AssetType : Type :=
| cash | investment_asset | real_estate | vehicle | other_asset.

Record Asset : Type := mkAsset {
  asset_name : string;
  asset_type : AssetType;
  asset_value : R;
  liquidityScore : R
}.

Record Allocation : Type := mkAllocation {
  alloc_needs : R;
  alloc_wants : R;
  alloc_savings : R
}.

Record BudgetAllocation : Type := mkBudgetAllocation {
  needs : R;
  wants : R;
  savings : R;
  actual : Allocation
}.

Record UserFinancialProfile : Type := mkProfile {
  incomes : list Income;
  expenses : list Expense;
  debts : list Debt;
  assets : list Asset;
  budgetAllocation : BudgetAllocation;
  emergencyFundTarget : R;
  emergencyFundCurrent : R;
  creditScore : option R
}.

(** The totals of lines 13-16, as exact sums.  The binary64 sums
    ([Binary64.totalIncome], [Binary64.totalExpenses]) differ from them in
    the last digits, which shows only where two totals are compared at a
    tie. *)
Definition totalIncome (profile : UserFinancialProfile) : number :=
  fold_left (fun sum inc => if isActive inc then (sum + income_amount inc)%js
                            else sum)
            (incomes profile) (Fin 0).

Definition totalExpenses (profile : UserFinancialProfile) : number :=
  fold_left (fun sum exp => (sum + expense_amount exp)%js)
            (expenses profile) (Fin 0).

Definition totalAssets (profile : UserFinancialProfile) : number :=
  fold_left (fun sum asset => (sum + asset_value asset)%js)
            (assets profile) (Fin 0).

Module Scores.
Record t : Type := mk {
  emergencyFund : number;
  debtToIncome : number;
  savingsRate : number;
  netWorth : number;
  creditScore : number;
  budgetAdherence : number
}.
End Scores.

Definition scores (profile : UserFinancialProfile) : Scores.t :=
  let totalIncome := totalIncome profile in
  let totalExpenses := totalExpenses profile in
  let totalDebt := totalDebt (debts profile) in
  let totalAssets := totalAssets profile in
  {| Scores.emergencyFund :=
       Math_min 100
         (emergencyFundCurrent profile / emergencyFundTarget profile * 100)%js;
     Scores.debtToIncome :=
       Math_max 0 (100 - totalDebt / (totalIncome * 12) * 100)%js;
     Scores.savingsRate :=
       Math_min 100
         ((totalIncome - totalExpenses) / totalIncome * 100 * 5)%js;
     Scores.netWorth :=
       Math_min 100 (totalAssets / Math_max 1 totalDebt * 20)%js;
     Scores.creditScore :=
       match creditScore profile with
       | Some score =>
           if truthy score then (score / 850 * 100)%js else Fin 50
       | None => Fin 50
       end;
     Scores.budgetAdherence :=
       (100 - Math_abs (alloc_needs (actual (budgetAllocation profile))
                        - needs (budgetAllocation profile)) * 2)%js |}.

Definition overallScore (profile : UserFinancialProfile) : number :=
  let scores := scores profile in
  Math_round
    (Scores.emergencyFund scores * 0.25
     + Scores.debtToIncome scores * 0.20
     + Scores.savingsRate scores * 0.20
     + Scores.netWorth scores * 0.15
     + Scores.creditScore scores * 0.10
     + Scores.budgetAdherence scores * 0.10)%js.

Definition in_0_100 (a : number) : Prop :=
  match a with
  | Fin x => 0 <= x <= 100
  | _ => False
  end.

(** ** DebtStrategyCard: chart rows and monthly payments *)

Record DebtChartRow : Type := mkDebtChartRow {
  row_name : string;
  row_Balance : R;
  row_Interest_Rate : R;
  row_priority : nat
}.

Definition debtChartData (strategy : Strategy) (debts : list Debt)
  : list DebtChartRow :=
  mapi (fun debt index =>
          {| row_name := debt_name debt;
             row_Balance := balance debt;
             row_Interest_Rate := interestRate debt;
             row_priority := index + 1 |})
       (sortedDebts strategy debts).

(** The amount shown as "Pay $.../mo" for an entry of the plan. *)
Definition monthlyPay (item : PlanEntry) : number :=
  (minimumPayment (plan_debt item) + plan_extraPayment item)%js.

(** ** FIREProgressCard: years to the target *)

(** [Array.prototype.findIndex]: the index of the first element that
    passes the test, or -1. *)
Section FindIndex.
Variable A : Type.
Variable test : A -> bool.

Fixpoint findIndex_from (index : Z) (l : list A) : Z :=
  match l with
  | [] => (-1)%Z
  | x :: l' => if test x then index else findIndex_from (index + 1)%Z l'
  end.

Definition findIndex (l : list A) : Z := findIndex_from 0%Z l.
End FindIndex.

Arguments findIndex_from {A} test index l.
Arguments findIndex {A} test l.

Definition yearsToFIRE (metrics : FIREMetrics) : Z :=
  findIndex (fun d => (Current_Path d >=? targetRetirementAmount metrics)%js)
            (projectionData metrics).

Definition currentProgress (metrics : FIREMetrics) : number :=
  (currentSavings metrics / targetRetirementAmount metrics * 100)%js.

Definition yearsWithExtra (metrics : FIREMetrics) : Z :=
  findIndex (fun d => (With_Extra d >=? targetRetirementAmount metrics)%js)
            (projectionData metrics).

Definition yearsSaved (metrics : FIREMetrics) : Z :=
  (yearsToFIRE metrics - yearsWithExtra metrics)%Z.

(** The points handed to the chart. *)
Definition chartData (metrics : FIREMetrics) : list ProjectionPoint :=
  filter (fun d => (point_year d <=? retirementAge metrics + 5)%js)
         (projectionData metrics).

(** ** GoalsTracker: ordering, totals and banners *)

Definition priorityOrder (p : Priority) : R :=
  match p with
  | high => 0
  | medium => 1
  | low => 2
  end.

Definition getPriorityColor (p : Priority) : string :=
  match p with
  | high => "rose"
  | medium => "amber"
  | low => "blue"
  end.

Definition getGoalColor (progress : number) : string :=
  if (progress >=? 100)%js then "emerald"
  else if (progress >=? 75)%js then "blue"
  else if (progress >=? 50)%js then "amber"
  else "rose".

Arguments priority {Date} f.

Section GoalsTracker.
Variable Date : Type.
Variable differenceInDays : Date -> Date -> Z.

Definition sortedGoals (goals : list (FinancialGoal Date))
  : list (FinancialGoal Date) :=
  sort (fun a b => (priorityOrder (priority a)
                    - priorityOrder (priority b))%js)
       goals.

Definition totalGoalValue (goals : list (FinancialGoal Date)) : number :=
  fold_left (fun sum goal => (sum + targetAmount goal)%js) goals (Fin 0).

Definition totalSaved (goals : list (FinancialGoal Date)) : number :=
  fold_left (fun sum goal => (sum + currentAmount goal)%js) goals (Fin 0).

Definition overallProgress (goals : list (FinancialGoal Date)) : number :=
  (totalSaved goals / totalGoalValue goals * 100)%js.

(** Per goal: the progress, the days remaining and the two banners. *)
Definition progress (goal : FinancialGoal Date) : number :=
  (currentAmount goal / targetAmount goal * 100)%js.

Definition daysRemaining (w : World Date) (goal : FinancialGoal Date) : Z :=
  differenceInDays (targetDate goal) (new_Date w).

Definition showsGoalAchieved (goal : FinancialGoal Date) : bool :=
  (progress goal >=? 100)%js.

Definition showsDeadlineApproaching (w : World Date)
           (goal : FinancialGoal Date) : bool :=
  (progress goal <? 100)%js && (IZR (daysRemaining w goal) <? 30)%js.

(** The amount of the "Smart Saving" note. *)
Definition totalMonthlyNeeded (w : World Date)
           (goals : list (FinancialGoal Date)) : number :=
  fold_left (fun sum goal =>
               (sum + calculateMonthlyNeeded differenceInDays w goal)%js)
            (sortedGoals goals) (Fin 0).
End GoalsTracker.

Arguments sortedGoals {Date} goals.
Arguments totalGoalValue {Date} goals.
Arguments totalSaved {Date} goals.
Arguments overallProgress {Date} goals.
Arguments progress {Date} goal.
Arguments daysRemaining {Date} differenceInDays w goal.
Arguments showsGoalAchieved {Date} goal.
Arguments showsDeadlineApproaching {Date} differenceInDays w goal.
Arguments totalMonthlyNeeded {Date} differenceInDays w goals.

(** ** FinancialHealthScore: colour, label and checkpoints *)

Definition getScoreColor (score : number) : string :=
  if (score >=? 80)%js then "emerald"
  else if (score >=? 60)%js then "amber"
  else "rose".

Definition getScoreLabel (score : number) : string :=
  if (score >=? 80)%js then "Excellent"
  else if (score >=? 60)%js then "Good"
  else if (score >=? 40)%js then "Fair"
  else "Needs Improvement".

(** A checkpoint, without its description text. *)
Record HealthCheck : Type := mkHealthCheck {
  check_label : string;
  check_status : string
}.

(** [profile.creditScore || 0]. *)
Definition creditScore_or_0 (profile : UserFinancialProfile) : number :=
  match creditScore profile with
  | Some score => if truthy score then Fin score else Fin 0
  | None => Fin 0
  end.

Definition is_investment (t : AssetType) : bool :=
  match t with
  | investment_asset => true
  | _ => false
  end.

Definition healthChecks (profile : UserFinancialProfile) : list HealthCheck :=
  let scores := scores profile in
  [ {| check_label := "Emergency Fund";
       check_status :=
         if (Scores.emergencyFund scores >=? 100)%js then "complete"
         else if (Scores.emergencyFund scores >=? 50)%js then "partial"
         else "incomplete" |};
    {| check_label := "Positive Cash Flow";
       check_status :=
         if (totalIncome profile >? totalExpenses profile)%js then "complete"
         else "incomplete" |};
    {| check_label := "Debt Management";
       check_status :=
         if (Scores.debtToIncome scores >=? 70)%js then "complete"
         else if (Scores.debtToIncome scores >=? 40)%js then "partial"
         else "incomplete" |};
    {| check_label := "Retirement Savings";
       check_status :=
         if existsb (fun a => is_investment (asset_type a)
                              && (asset_value a >? 0)%js)
                    (assets profile)
         then "complete" else "incomplete" |};
    {| check_label := "Credit Health";
       check_status :=
         if (creditScore_or_0 profile >=? 700)%js then "complete"
         else if (creditScore_or_0 profile >=? 600)%js then "partial"
         else "incomplete" |} ].

(** ** BudgetAllocationChart *)

Record BudgetRow : Type := mkBudgetRow {
  budget_name : string;
  budget_value : R;
  budget_target : R;
  budget_amount : number
}.

Definition budgetData (allocation : BudgetAllocation) (monthlyIncome : R)
  : list BudgetRow :=
  [ {| budget_name := "Needs (50%)";
       budget_value := alloc_needs (actual allocation);
       budget_target := needs allocation;
       budget_amount :=
         (monthlyIncome * alloc_needs (actual allocation) / 100)%js |};
    {| budget_name := "Wants (30%)";
       budget_value := alloc_wants (actual allocation);
       budget_target := wants allocation;
       budget_amount :=
         (monthlyIncome * alloc_wants (actual allocation) / 100)%js |};
    {| budget_name := "Savings (20%)";
       budget_value := alloc_savings (actual allocation);
       budget_target := savings allocation;
       budget_amount :=
         (monthlyIncome * alloc_savings (actual allocation) / 100)%js |} ].

Definition isOnTrack (allocation : BudgetAllocation) : bool :=
  (Math_abs (alloc_needs (actual allocation) - needs allocation) <=? 5)%js
  && (Math_abs (alloc_wants (actual allocation) - wants allocation) <=? 5)%js
  && (Math_abs (alloc_savings (actual allocation) - savings allocation)
      <=? 5)%js.

(** The colour of the progress bar of a row. *)
Definition barColor (category : BudgetRow) : string :=
  if (budget_value category <=? budget_target category)%js then "emerald"
  else if (budget_value category <=? budget_target category + 5)%js
       then "amber"
       else "rose".

(** ** EmergencyFundTracker *)

Record Milestone : Type := mkMilestone {
  milestone_months : R;
  milestone_label : string;
  reached : bool
}.

Section EmergencyFundTracker.
Variables current target monthlyExpenses : R.

Definition progressPercentage_fund : number := (current / target * 100)%js.

(** The exact quotient; the binary64 quotient ([Binary64.monthsCovered])
    can round to 6 from below, or fall just below 6, when the fund is six
    months of expenses up to the last digit. *)
Definition monthsCovered : number := (current / monthlyExpenses)%js.
Definition recommendedMonths : R := 6.
Definition remainingToSave : number := (target - current)%js.
Definition monthlySavingsNeeded : number := (remainingToSave / 12)%js.

Definition getStatusColor : string :=
  if (monthsCovered >=? recommendedMonths)%js then "emerald"
  else if (monthsCovered >=? 3)%js then "amber"
  else "rose".

Definition milestones : list Milestone :=
  [ mkMilestone 1 "1 Month" (monthsCovered >=? 1)%js;
    mkMilestone 3 "3 Months" (monthsCovered >=? 3)%js;
    mkMilestone 6 "6 Months" (monthsCovered >=? 6)%js;
    mkMilestone 9 "9 Months" (monthsCovered >=? 9)%js ].

(** Whether the recommendation box is rendered, and the amount in it. *)
Definition showsRecommendation : bool :=
  (monthsCovered <? recommendedMonths)%js.

Definition recommendedShortfall : number :=
  (recommendedMonths * monthlyExpenses - current)%js.
End EmergencyFundTracker.

(** ** CashFlowChart *)

Record CashFlow : Type := mkCashFlow {
  cf_month : string;
  cf_income : R;
  cf_expenses : R;
  netFlow : R;
  cumulativeFlow : R
}.

(** [data[data.length - 1]]; [None] stands for [undefined]. *)
Definition latestMonth (data : list CashFlow) : option CashFlow :=
  nth_error data (length data - 1).

(** The trend and the average the card shows.  Reading [netFlow] of an
    undefined latest month throws; [None] stands for that. *)
Definition cashFlowSummary (data : list CashFlow) : option (string * number) :=
  match latestMonth data with
  | None => None
  | Some latest =>
      let trend :=
        if (netFlow latest >? 0)%js then "positive"%string
        else "negative"%string in
      let avgNetFlow :=
        (fold_left (fun sum month => (sum + netFlow month)%js) data (Fin 0)
         / INR (length data))%js in
      Some (trend, avgNetFlow)
  end.

(** ** The dashboard page: the net cash flow card *)

Definition monthlyNetFlow (profile : UserFinancialProfile) : number :=
  (totalIncome profile - totalExpenses profile)%js.

Definition netFlowColor (profile : UserFinancialProfile) : string :=
  if (monthlyNetFlow profile >? 0)%js then "emerald" else "rose".

(** ** The arithmetic of the cards on binary64 numbers *)

(** Every operation below is the binary64 operation of the language,
    rounding to nearest; a decimal literal denotes the nearest binary64
    number, as it does in the source.  [x >= y] is written [y <=? x] and
    [x > y] is written [y <? x].
    [Math.log] is no binary64 primitive: it is applied to the exact value
    of its binary64 argument and taken as exact, and so are the division
    of the two logarithms and [Math.ceil] that follow it. *)

Set Warnings "-inexact-float".

Module Binary64.

(** The exact value of a binary64 number, as a fraction of integers. *)
Definition numerator (s : bool) (m : positive) (e : Z) : Z :=
  ((if s then Z.neg m else Z.pos m) * 2 ^ Z.max e 0)%Z.

Definition denominator (e : Z) : Z := (2 ^ Z.max (- e) 0)%Z.

Definition value (x : float) : number :=
  match Prim2SF x with
  | S754_zero _ => Fin 0
  | S754_infinity false => Infinity
  | S754_infinity true => NegInfinity
  | S754_nan => NaN
  | S754_finite s m e => Fin (IZR (numerator s m e) / IZR (denominator e))
  end.

(** The numeric fields of a debt. *)
Record Debt : Type := mkDebt {
  balance : float;
  interestRate : float;
  minimumPayment : float
}.

(** [calculatePayoffTime], lines 34-40. *)
Definition calculatePayoffTime (debt : Debt) (extraPayment : float)
  : number :=
  let monthlyRate := (interestRate debt / 100 / 12)%float in
  let payment := (minimumPayment debt + extraPayment)%float in
  if (payment <=? balance debt * monthlyRate)%float then Infinity
  else
    let months :=
      (Math_log
         (value (payment / (payment - balance debt * monthlyRate))%float)
       / Math_log (value (1 + monthlyRate)%float))%js in
    Math_ceil months.

(** [EmergencyFundTracker], lines 14-15, 19-23 and 109-117. *)
Definition monthsCovered (current monthlyExpenses : float) : float :=
  (current / monthlyExpenses)%float.

Definition recommendedMonths : float := 6%float.

Definition getStatusColor (current monthlyExpenses : float) : string :=
  if (recommendedMonths <=? monthsCovered current monthlyExpenses)%float
  then "emerald"
  else if (3 <=? monthsCovered current monthlyExpenses)%float then "amber"
       else "rose".

Definition showsRecommendation (current monthlyExpenses : float) : bool :=
  (monthsCovered current monthlyExpenses <? recommendedMonths)%float.

Definition recommendedShortfall (current monthlyExpenses : float) : float :=
  (recommendedMonths * monthlyExpenses - current)%float.

(** The totals of [FinancialHealthScore] and of the page, the checkpoint
    "Positive Cash Flow" and the colour of the net cash flow card.  An
    expense is its amount. *)
Record Income : Type := mkIncome {
  amount : float;
  isActive : bool
}.

Definition totalIncome (incomes : list Income) : float :=
  fold_left (fun sum inc => if isActive inc then (sum + amount inc)%float
                            else sum)
            incomes 0%float.

Definition totalExpenses (expenses : list float) : float :=
  fold_left (fun sum exp => (sum + exp)%float) expenses 0%float.

Definition positiveCashFlow (incomes : list Income)
           (expenses : list float) : string :=
  if (totalExpenses expenses <? totalIncome incomes)%float then "complete"
  else "incomplete".

Definition netFlowColor (incomes : list Income)
           (expenses : list float) : string :=
  if (0 <? totalIncome incomes - totalExpenses expenses)%float
  then "emerald" else "rose".

(** A card whose payment is exactly the interest of the first month, a
    loan that two payments clear exactly, and the sample credit card. *)
Definition tiedCard : Debt := mkDebt 4000 15 50.

Definition twoPaymentLoan : Debt := mkDebt 16200 30 8405.

Definition mockCreditCard : Debt := mkDebt 5000 18.99 150.

End Binary64.

(** ** Reference definitions, in the words of the specification *)

(** The monthly rate [r] and the total payment [p] of a debt. *)
Definition monthlyRate (debt : Debt) : R := interestRate debt / 100 / 12.

Definition payment (debt : Debt) (extra : R) : R :=
  minimumPayment debt + extra.

(** The closed form of the number of months. *)
Definition closed_form_months (r p b : R) : Z :=
  Zceil (ln (p / (p - b * r)) / ln (1 + r)).

(** The direct month-by-month amortization: every month the balance
    bears interest and the payment is taken off; the result is the number
    of payments after which nothing is owed. *)
Fixpoint simulate (fuel : nat) (r p b : R) : option nat :=
  match fuel with
  | O => None
  | S fuel' =>
      if Rle_dec b 0 then Some O
      else option_map S (simulate fuel' r p (b * (1 + r) - p))
  end.

(** The balance after [k] payments. *)
Fixpoint balance_after (k : nat) (r p b : R) : R :=
  match k with
  | O => b
  | S k' => balance_after k' r p (b * (1 + r) - p)
  end.

(** Selecting the debts with a given rate, or a given balance. *)
Definition Req_bool (x y : R) : bool :=
  if Req_dec_T x y then true else false.

Definition has_rate (v : R) (debt : Debt) : bool :=
  Req_bool (interestRate debt) v.

Definition has_balance (v : R) (debt : Debt) : bool :=
  Req_bool (balance debt) v.

(** Selecting the goals with a given priority. *)
Definition Priority_eqb (p q : Priority) : bool :=
  match p, q with
  | high, high | medium, medium | low, low => true
  | _, _ => false
  end.

(** The future value of savings with a monthly contribution, compounded
    monthly over [yearOffset] years. *)
Definition FV (currentSavings monthlyContribution annualReturnPercent : R)
           (yearOffset : nat) : R :=
  let r := annualReturnPercent / 100 / 12 in
  let n := (yearOffset * 12)%nat in
  if Req_dec_T r 0 then currentSavings + monthlyContribution * INR n
  else currentSavings * (1 + r) ^ n
       + monthlyContribution * ((1 + r) ^ n - 1) / r.

(** The same metrics with the monthly contribution raised by [extra]. *)
Definition raiseContribution (metrics : FIREMetrics) (extra : R)
  : FIREMetrics :=
  {| currentAge := currentAge metrics;
     retirementAge := retirementAge metrics;
     currentSavings := currentSavings metrics;
     monthlyContribution := monthlyContribution metrics + extra;
     expectedReturn := expectedReturn metrics;
     inflationRate := inflationRate metrics;
     targetRetirementAmount := targetRetirementAmount metrics;
     yearsToRetirement := yearsToRetirement metrics;
     progressPercentage := progressPercentage metrics |}.

(** The monthly amount a goal requires, [days] days before its
    deadline. *)
Definition requiredMonthly (targetAmount currentAmount : R) (days : Z) : R :=
  Rmax 0 (targetAmount - currentAmount) / Rmax 1 (IZR days / 30).

(** Sums of the amounts of a profile, as reals. *)
Definition Rsum (l : list R) : R := fold_right Rplus 0 l.

Definition activeIncome (profile : UserFinancialProfile) : R :=
  Rsum (map income_amount (filter isActive (incomes profile))).

Definition expenseSum (profile : UserFinancialProfile) : R :=
  Rsum (map expense_amount (expenses profile)).

Definition debtSum (profile : UserFinancialProfile) : R :=
  Rsum (map balance (debts profile)).

Definition assetSum (profile : UserFinancialProfile) : R :=
  Rsum (map asset_value (assets profile)).

(** The relative band around a tie within which the rounding of the
    binary64 operations decides a comparison: one part in 10^12, far above
    the few units in the sixteenth digit that three or four operations can
    lose and far below a cent in amounts of the size the application handles. *)
Definition rounding_band : R := 1 / 10 ^ 12.

(** ** Sample data ([lib/mock-data]) and variations of it *)

Definition mockCreditCard : Debt :=
  mkDebt "Credit Card 1" credit_card 5000 18.99 150.

Definition mockDebts : list Debt :=
  [ mockCreditCard;
    mkDebt "Student Loan" student_loan 28000 4.5 350;
    mkDebt "Auto Loan" auto_loan 15000 5.2 450 ].

(** The credit card paying 75 a month, below the interest of the first
    month. *)
Definition underpaidCard : Debt :=
  mkDebt "Credit Card 1" credit_card 5000 18.99 75.

(** A card whose payment of 50 is exactly the interest of the first
    month (4000 * 15 / 100 / 12), and a loan that two payments of 8405
    clear exactly (16200 * 1.025 - 8405 = 8200, 8200 * 1.025 - 8405 = 0). *)
Definition tiedCard : Debt :=
  mkDebt "Credit Card 2" credit_card 4000 15 50.

Definition twoPaymentLoan : Debt :=
  mkDebt "Bridge Loan" personal_loan 16200 30 8405.

(** An interest-free loan of 1000 paid at 100 a month, and the same loan
    with no payment at all. *)
Definition interestFreeLoan : Debt :=
  mkDebt "Family Loan" personal_loan 1000 0 100.

Definition unpaidInterestFreeLoan : Debt :=
  mkDebt "Family Loan" personal_loan 1000 0 0.

Definition mockFIREMetrics : FIREMetrics :=
  {| currentAge := 32;
     retirementAge := 55;
     currentSavings := 57000;
     monthlyContribution := 2000;
     expectedReturn := 7;
     inflationRate := 3;
     targetRetirementAmount := 2000000;
     yearsToRetirement := 23;
     progressPercentage := 2.85 |}.

(** No savings yet, 1000 a month, no return. *)
Definition noReturnMetrics : FIREMetrics :=
  {| currentAge := 32;
     retirementAge := 55;
     currentSavings := 0;
     monthlyContribution := 1000;
     expectedReturn := 0;
     inflationRate := 3;
     targetRetirementAmount := 2000000;
     yearsToRetirement := 23;
     progressPercentage := 0 |}.

(** The emergency-fund goal with its deadline 360 days after the epoch,
    the same goal overfunded, and three clock readings: the epoch, 60 days
    later and 350 days later. *)
Definition emergencyGoal : FinancialGoal Z :=
  mkGoal "g1" "Emergency Fund" 18000 8000 (360 * ms_per_day)%Z
         high emergency_fund.

Definition overfundedGoal : FinancialGoal Z :=
  mkGoal "g1" "Emergency Fund" 18000 20000 (360 * ms_per_day)%Z
         high emergency_fund.

Definition atEpoch : World Z := mkWorld 0%Z.
Definition sixtyDaysLater : World Z := mkWorld (60 * ms_per_day)%Z.
Definition tenDaysBefore : World Z := mkWorld (350 * ms_per_day)%Z.

Definition mockExpenses : list Expense :=
  [ mkExpense "Housing" "Rent" 2000 true;
    mkExpense "Transportation" "Car Payment" 450 true;
    mkExpense "Utilities" "Electricity" 120 true;
    mkExpense "Food" "Groceries" 600 true;
    mkExpense "Food" "Dining Out" 300 false;
    mkExpense "Entertainment" "Subscriptions" 50 false;
    mkExpense "Insurance" "Health Insurance" 350 true;
    mkExpense "Personal" "Gym" 50 false ].

Definition mockAssets : list Asset :=
  [ mkAsset "Checking Account" cash 3500 100;
    mkAsset "Savings Account" cash 8000 100;
    mkAsset "401(k)" investment_asset 45000 20;
    mkAsset "Brokerage Account" investment_asset 12000 90;
    mkAsset "Car" vehicle 20000 60 ].

(** The sample profile after the salary has stopped: the salary is marked
    inactive, everything else is as in the sample. *)
Definition salaryStoppedProfile : UserFinancialProfile :=
  {| incomes := [ mkIncome "Salary" 6500 false;
                  mkIncome "Freelance" 1200 true ];
     expenses := mockExpenses;
     debts := mockDebts;
     assets := mockAssets;
     budgetAllocation := mkBudgetAllocation 50 30 20 (mkAllocation 55 25 20);
     emergencyFundTarget := 18000;
     emergencyFundCurrent := 8000;
     creditScore := Some 720 |}.

(** The sample profile. *)
Definition mockUserProfile : UserFinancialProfile :=
  {| incomes := [ mkIncome "Salary" 6500 true;
                  mkIncome "Freelance" 1200 true ];
     expenses := mockExpenses;
     debts := mockDebts;
     assets := mockAssets;
     budgetAllocation := mkBudgetAllocation 50 30 20 (mkAllocation 55 25 20);
     emergencyFundTarget := 18000;
     emergencyFundCurrent := 8000;
     creditScore := Some 720 |}.

(** The sample profile with no active income at all. *)
Definition noIncomeProfile : UserFinancialProfile :=
  {| incomes := [ mkIncome "Salary" 6500 false;
                  mkIncome "Freelance" 1200 false ];
     expenses := mockExpenses;
     debts := mockDebts;
     assets := mockAssets;
     budgetAllocation := mkBudgetAllocation 50 30 20 (mkAllocation 55 25 20);
     emergencyFundTarget := 18000;
     emergencyFundCurrent := 8000;
     creditScore := Some 720 |}.

(** * Properties *)

(** ** Arithmetic on finite numbers *)

Lemma add_Fin (x y : R) : (Fin x + Fin y)%js = Fin (x + y).
Proof. reflexivity. Qed.

Lemma sub_Fin (x y : R) : (Fin x - Fin y)%js = Fin (x - y).
Proof. reflexivity. Qed.

Lemma mul_Fin (x y : R) : (Fin x * Fin y)%js = Fin (x * y).
Proof. reflexivity. Qed.

Lemma div_Fin (x y : R) : y <> 0 -> (Fin x / Fin y)%js = Fin (x / y).
Proof.
  intros Hy. unfold div.
  destruct (Req_dec_T y 0); [contradiction | reflexivity].
Qed.

Lemma div_zero_zero : (Fin 0 / Fin 0)%js = NaN.
Proof.
  unfold div, Rsign.
  destruct (Req_dec_T 0 0) as [_ | H]; [| lra].
  destruct (Rlt_dec 0 0); [lra | reflexivity].
Qed.

Lemma le_Fin_true (x y : R) : x <= y -> (Fin x <=? Fin y)%js = true.
Proof. intros H. unfold le. destruct (Rle_dec x y); [reflexivity | lra]. Qed.

Lemma le_Fin_false (x y : R) : y < x -> (Fin x <=? Fin y)%js = false.
Proof. intros H. unfold le. destruct (Rle_dec x y); [lra | reflexivity]. Qed.

Lemma gt_Fin_true (x y : R) : y < x -> (Fin x >? Fin y)%js = true.
Proof.
  intros H. unfold gt, lt. destruct (Rlt_dec y x); [reflexivity | lra].
Qed.

Lemma gt_Fin_false (x y : R) : x <= y -> (Fin x >? Fin y)%js = false.
Proof.
  intros H. unfold gt, lt. destruct (Rlt_dec y x); [lra | reflexivity].
Qed.

Lemma Math_log_pos (x : R) : 0 < x -> Math_log (Fin x) = Fin (ln x).
Proof.
  intros H. unfold Math_log, Rsign.
  destruct (Rlt_dec x 0); [lra |]. destruct (Rlt_dec 0 x); [reflexivity | lra].
Qed.

Lemma Math_max_Fin (x y : R) : Math_max (Fin x) (Fin y) = Fin (Rmax x y).
Proof.
  unfold Math_max, le, Rmax. destruct (Rle_dec x y); reflexivity.
Qed.

Lemma Math_min_Fin (x y : R) : Math_min (Fin x) (Fin y) = Fin (Rmin x y).
Proof.
  unfold Math_min, le, Rmin. destruct (Rle_dec x y); reflexivity.
Qed.

Lemma Math_pow_Fin (x : R) (n : nat) : Math_pow (Fin x) n = Fin (x ^ n).
Proof. destruct n; reflexivity. Qed.

Lemma ln_1_plus_pos (r : R) : 0 < r -> 0 < ln (1 + r).
Proof. intros H. rewrite <- ln_1. apply ln_increasing; lra. Qed.

(** ** Months to payoff *)

Lemma monthlyRate_js (debt : Debt) :
  (interestRate debt / 100 / 12)%js = Fin (monthlyRate debt).
Proof. unfold monthlyRate. rewrite !div_Fin by lra. reflexivity. Qed.

Lemma calculatePayoffTime_guard (debt : Debt) (extra : R) :
  payment debt extra <= balance debt * monthlyRate debt ->
  calculatePayoffTime debt extra = Infinity.
Proof.
  intros H. unfold calculatePayoffTime.
  rewrite monthlyRate_js, add_Fin, mul_Fin.
  now rewrite le_Fin_true by exact H.
Qed.

Lemma calculatePayoffTime_past_guard (debt : Debt) (extra : R) :
  balance debt * monthlyRate debt < payment debt extra ->
  calculatePayoffTime debt extra =
  Math_ceil
    (Math_log (Fin (payment debt extra
                    / (payment debt extra - balance debt * monthlyRate debt)))
     / Math_log (Fin (1 + monthlyRate debt)))%js.
Proof.
  intros H. unfold calculatePayoffTime.
  rewrite monthlyRate_js, !add_Fin, mul_Fin, sub_Fin.
  rewrite le_Fin_false by exact H.
  rewrite div_Fin by (unfold payment in *; lra).
  reflexivity.
Qed.

Lemma calculatePayoffTime_convergent (debt : Debt) (extra : R) :
  0 <= balance debt ->
  0 < interestRate debt ->
  balance debt * monthlyRate debt < payment debt extra ->
  calculatePayoffTime debt extra =
  Fin (IZR (closed_form_months (monthlyRate debt) (payment debt extra)
                               (balance debt))).
Proof.
  intros Hb Hr Hp.
  assert (Hm : 0 < monthlyRate debt) by (unfold monthlyRate; lra).
  assert (Hbr : 0 <= balance debt * monthlyRate debt)
    by (apply Rmult_le_pos; lra).
  rewrite calculatePayoffTime_past_guard by exact Hp.
  rewrite Math_log_pos by (apply Rdiv_lt_0_compat; lra).
  rewrite Math_log_pos by lra.
  rewrite div_Fin by (pose proof (ln_1_plus_pos _ Hm); lra).
  reflexivity.
Qed.

Lemma calculatePayoffTime_zero_rate (debt : Debt) (extra : R) :
  interestRate debt = 0 ->
  0 < payment debt extra ->
  calculatePayoffTime debt extra = NaN.
Proof.
  intros Hr Hp.
  assert (Hm : monthlyRate debt = 0) by (unfold monthlyRate; lra).
  rewrite calculatePayoffTime_past_guard by (rewrite Hm; lra).
  rewrite Hm.
  replace (payment debt extra / (payment debt extra - balance debt * 0))
    with 1 by (field; lra).
  replace (1 + 0) with 1 by lra.
  rewrite Math_log_pos by lra. rewrite ln_1.
  now rewrite div_zero_zero.
Qed.

(** ** The closed form against the month-by-month simulation *)

Section Amortization.
Variables r p b0 : R.
Hypothesis r_pos : 0 < r.
Hypothesis b0_nonneg : 0 <= b0.
Hypothesis convergent : b0 * r < p.

Lemma balance_after_closed (k : nat) (b : R) :
  balance_after k r p b = (b - p / r) * (1 + r) ^ k + p / r.
Proof.
  revert b. induction k as [| k IH]; intros b; simpl.
  - lra.
  - rewrite IH. field. lra.
Qed.

Lemma simulate_least (k : nat) :
  forall (fuel : nat) (b : R),
    (forall j, (j < k)%nat -> 0 < balance_after j r p b) ->
    balance_after k r p b <= 0 ->
    (k < fuel)%nat ->
    simulate fuel r p b = Some k.
Proof.
  induction k as [| k IH]; intros fuel b Hbefore Hat Hfuel.
  - destruct fuel as [| fuel]; [lia |]. simpl in *.
    destruct (Rle_dec b 0); [reflexivity | lra].
  - destruct fuel as [| fuel]; [lia |]. simpl.
    destruct (Rle_dec b 0) as [Hb | Hb].
    + specialize (Hbefore O ltac:(lia)). simpl in Hbefore. lra.
    + rewrite (IH fuel (b * (1 + r) - p)); [reflexivity | | exact Hat | lia].
      intros j Hj. apply (Hbefore (S j)). lia.
Qed.

Lemma ratio_ge_1 : 1 <= p / (p - b0 * r).
Proof.
  assert (H : 0 <= b0 * r) by (apply Rmult_le_pos; lra).
  apply (Rmult_le_reg_r (p - b0 * r)); [lra |].
  unfold Rdiv. rewrite Rmult_assoc, Rinv_l by lra. lra.
Qed.

Lemma cleared_iff (k : nat) :
  balance_after k r p b0 <= 0 <-> p / (p - b0 * r) <= (1 + r) ^ k.
Proof.
  rewrite balance_after_closed.
  assert (Hden : 0 < p - b0 * r) by lra.
  assert (Hq : 0 < (p - b0 * r) / r) by (apply Rdiv_lt_0_compat; lra).
  replace ((b0 - p / r) * (1 + r) ^ k + p / r)
    with ((p - b0 * r) / r * (p / (p - b0 * r) - (1 + r) ^ k))
    by (field; lra).
  split; intros H; nra.
Qed.

Lemma pow_vs_ln (k : nat) :
  p / (p - b0 * r) <= (1 + r) ^ k
  <-> ln (p / (p - b0 * r)) / ln (1 + r) <= INR k.
Proof.
  pose proof ratio_ge_1 as H1.
  pose proof (ln_1_plus_pos _ r_pos) as Hln.
  assert (Hpow : 0 < (1 + r) ^ k) by (apply pow_lt; lra).
  assert (Hk : ln ((1 + r) ^ k) = INR k * ln (1 + r))
    by (apply ln_pow; lra).
  split; intros H.
  - apply (Rmult_le_reg_r (ln (1 + r))); [exact Hln |].
    unfold Rdiv. rewrite Rmult_assoc, Rinv_l by lra.
    rewrite Rmult_1_r, <- Hk.
    destruct H as [H | H];
      [left; apply ln_increasing; lra | right; unfold Rdiv in H; now rewrite H].
  - assert (H' : ln (p / (p - b0 * r)) <= ln ((1 + r) ^ k)).
    { rewrite Hk. apply (Rmult_le_compat_r (ln (1 + r))) in H; [| lra].
      unfold Rdiv in H. rewrite Rmult_assoc, Rinv_l in H by lra. lra. }
    destruct H' as [H' | H'].
    + left. apply ln_lt_inv; lra.
    + right. apply ln_inv; lra.
Qed.

Lemma closed_form_nonneg : (0 <= closed_form_months r p b0)%Z.
Proof.
  unfold closed_form_months.
  pose proof ratio_ge_1 as H1.
  pose proof (ln_1_plus_pos _ r_pos) as Hln.
  assert (H0 : 0 <= ln (p / (p - b0 * r))).
  { rewrite <- ln_1. destruct H1 as [H1 | H1];
      [left; apply ln_increasing; lra | right; now rewrite <- H1]. }
  assert (Hq : 0 <= ln (p / (p - b0 * r)) / ln (1 + r)).
  { apply Rmult_le_pos; [exact H0 | left; now apply Rinv_0_lt_compat]. }
  pose proof (Zceil_bound (ln (p / (p - b0 * r)) / ln (1 + r))) as [_ Hup].
  apply le_IZR. lra.
Qed.

Lemma simulate_closed_form (fuel : nat) :
  (Z.to_nat (closed_form_months r p b0) < fuel)%nat ->
  simulate fuel r p b0 = Some (Z.to_nat (closed_form_months r p b0)).
Proof.
  intros Hfuel.
  pose proof closed_form_nonneg as Hn.
  assert (HINR : forall j : nat, INR j = IZR (Z.of_nat j))
    by (intros j; apply INR_IZR_INZ).
  pose proof (Zceil_bound (ln (p / (p - b0 * r)) / ln (1 + r))) as [Hlow Hup].
  apply simulate_least; [| | exact Hfuel].
  - intros j Hj.
    apply Rnot_le_lt. intros Hcl.
    apply cleared_iff, pow_vs_ln in Hcl. rewrite HINR in Hcl.
    assert (Hjz : (Z.of_nat j + 1 <= closed_form_months r p b0)%Z) by lia.
    apply IZR_le in Hjz. rewrite plus_IZR in Hjz.
    unfold closed_form_months in Hjz. lra.
  - apply cleared_iff, pow_vs_ln. rewrite HINR, Z2Nat.id by exact Hn.
    exact Hup.
Qed.

End Amortization.

Lemma closed_form_months_eq (r p b : R) (n : nat) :
  0 < r -> 0 <= b -> b * r < p ->
  (1 + r) ^ n < p / (p - b * r) <= (1 + r) ^ S n ->
  closed_form_months r p b = Z.of_nat (S n).
Proof.
  intros Hr Hb Hp [Hlow Hup].
  unfold closed_form_months. apply Zceil_eq.
  rewrite <- !INR_IZR_INZ. split.
  - apply Rnot_le_lt. intros H.
    replace (INR (S n) - 1) with (INR n) in H by (rewrite S_INR; lra).
    apply (pow_vs_ln _ _ _ Hr Hb Hp) in H. lra.
  - now apply (pow_vs_ln _ _ _ Hr Hb Hp).
Qed.

Lemma mockCreditCard_months :
  closed_form_months (monthlyRate mockCreditCard)
                     (payment mockCreditCard 250)
                     (balance mockCreditCard) = 15%Z.
Proof.
  change 15%Z with (Z.of_nat 15).
  unfold monthlyRate, payment, mockCreditCard.
  cbn [interestRate balance minimumPayment].
  apply closed_form_months_eq; [lra | lra | lra |].
  split; simpl pow; lra.
Qed.

(** C1, as stated, fails: with balance 5000, rate 18.99 and payment 75 the
    payment is below the first month's interest and the function returns
    the infinite number [Infinity]. *)
Lemma underpaid_card_returns_Infinity :
  0 < monthlyRate underpaidCard
  /\ payment underpaidCard 0
     <= balance underpaidCard * monthlyRate underpaidCard
  /\ calculatePayoffTime underpaidCard 0 = Infinity
  /\ is_infinite (calculatePayoffTime underpaidCard 0).
Proof.
  assert (Hr : 0 < monthlyRate underpaidCard)
    by (unfold monthlyRate; simpl; lra).
  assert (Hp : payment underpaidCard 0
               <= balance underpaidCard * monthlyRate underpaidCard)
    by (unfold monthlyRate, payment; simpl; lra).
  repeat split; try assumption.
  - now apply calculatePayoffTime_guard.
  - now rewrite calculatePayoffTime_guard.
Qed.

(** C1, amended.  For every debt with balance >= 0 and monthly rate
    r > 0: when the payment p is below balance * r by more than the
    rounding band, the function returns the number [Infinity] (there is no
    tagged outcome, the caller compares the result with [Infinity]); when p
    is above balance * r by more than the band, the result is a finite
    number.  Inside the band p and balance * r agree to twelve digits and
    the side the comparison of line 37 takes is decided by the rounding of
    the product (see the section on ties); nothing is stated there. *)
Theorem calculatePayoffTime_Infinity_outside_band (debt : Debt) (extra : R) :
  0 <= balance debt ->
  0 < monthlyRate debt ->
  (payment debt extra
   <= balance debt * monthlyRate debt * (1 - rounding_band) ->
   calculatePayoffTime debt extra = Infinity)
  /\ (balance debt * monthlyRate debt * (1 + rounding_band)
      < payment debt extra ->
      is_finite (calculatePayoffTime debt extra)).
Proof.
  intros Hb Hr.
  assert (Hbr : 0 <= balance debt * monthlyRate debt)
    by (apply Rmult_le_pos; lra).
  assert (Hband : 0 < rounding_band < 1)
    by (unfold rounding_band; simpl pow; lra).
  split; intros Hp.
  - apply calculatePayoffTime_guard. nra.
  - rewrite calculatePayoffTime_convergent; [exact I | exact Hb | | nra].
    unfold monthlyRate in Hr. lra.
Qed.

Lemma calculatePayoffTime_Infinity_outside_band_witness :
  calculatePayoffTime underpaidCard 0 = Infinity
  /\ is_finite (calculatePayoffTime mockCreditCard 250).
Proof.
  split.
  - apply (calculatePayoffTime_Infinity_outside_band underpaidCard 0);
      unfold monthlyRate, payment, rounding_band; simpl; lra.
  - apply (calculatePayoffTime_Infinity_outside_band mockCreditCard 250);
      unfold monthlyRate, payment, rounding_band; simpl; lra.
Defined.

(** C3, as stated, fails: for the interest-free loan of 1000 paid at 100 a
    month the function returns [NaN], not ceil (1000 / 100) = 10; and with
    no payment at all it returns the number [Infinity]. *)
Lemma interest_free_loan_not_ceil :
  interestRate interestFreeLoan = 0
  /\ 0 < payment interestFreeLoan 0
  /\ calculatePayoffTime interestFreeLoan 0 = NaN
  /\ calculatePayoffTime interestFreeLoan 0
     <> Fin (IZR (Zceil (balance interestFreeLoan
                         / payment interestFreeLoan 0)))
  /\ payment unpaidInterestFreeLoan 0 <= 0
  /\ calculatePayoffTime unpaidInterestFreeLoan 0 = Infinity.
Proof.
  assert (Hnan : calculatePayoffTime interestFreeLoan 0 = NaN)
    by (apply calculatePayoffTime_zero_rate; unfold payment; simpl; lra).
  repeat split.
  - unfold payment; simpl; lra.
  - exact Hnan.
  - rewrite Hnan. discriminate.
  - unfold payment; simpl; lra.
  - apply calculatePayoffTime_guard. unfold payment, monthlyRate; simpl; lra.
Qed.

(** C3, amended.  For every debt with annual rate 0 and total payment
    p <= 0 the function returns the number [Infinity]; no outcome of the
    function is an input error. *)
Theorem zero_rate_no_payment_Infinity (debt : Debt) (extra : R) :
  interestRate debt = 0 ->
  payment debt extra <= 0 ->
  calculatePayoffTime debt extra = Infinity.
Proof.
  intros Hr Hp. apply calculatePayoffTime_guard.
  unfold monthlyRate. rewrite Hr. lra.
Qed.

Lemma zero_rate_no_payment_Infinity_witness :
  calculatePayoffTime unpaidInterestFreeLoan 0 = Infinity.
Proof.
  apply (zero_rate_no_payment_Infinity unpaidInterestFreeLoan 0);
    unfold payment; simpl; lra.
Defined.

(** ** Sorting with a comparison function that compares keys *)

Section SortByKey.
Variable A : Type.
Variable comparefn : A -> A -> number.
Variable key : A -> R.
Hypothesis comparefn_key :
  forall x y, (comparefn x y >? 0)%js = true <-> key y < key x.

Lemma insert_perm (x : A) (l : list A) :
  Permutation (insert comparefn x l) (x :: l).
Proof.
  induction l as [| y l IH]; cbn [insert sort fold_right].
  - apply Permutation_refl.
  - destruct (comparefn x y >? 0)%js.
    + apply perm_trans with (y :: x :: l).
      * now apply perm_skip.
      * apply perm_swap.
    + apply Permutation_refl.
Qed.

Lemma sort_perm (l : list A) : Permutation (sort comparefn l) l.
Proof.
  induction l as [| x l IH]; cbn [insert sort fold_right].
  - apply perm_nil.
  - apply perm_trans with (x :: sort comparefn l).
    + apply insert_perm.
    + now apply perm_skip.
Qed.

Lemma insert_sorted (x : A) (l : list A) :
  StronglySorted (fun a b => key a <= key b) l ->
  StronglySorted (fun a b => key a <= key b) (insert comparefn x l).
Proof.
  induction 1 as [| y l Hsorted IH Hall]; cbn [insert sort fold_right].
  - repeat constructor.
  - destruct (comparefn x y >? 0)%js eqn:Hcmp.
    + apply comparefn_key in Hcmp.
      constructor; [exact IH |].
      apply (Permutation_Forall (Permutation_sym (insert_perm x l))).
      constructor; [lra | exact Hall].
    + assert (Hxy : key x <= key y).
      { apply Rnot_lt_le. intros Hlt. apply comparefn_key in Hlt. congruence. }
      constructor; [now constructor |].
      constructor; [exact Hxy |].
      revert Hall. apply Forall_impl. intros; lra.
Qed.

Lemma sort_sorted (l : list A) :
  StronglySorted (fun a b => key a <= key b) (sort comparefn l).
Proof.
  induction l as [| x l IH]; cbn [insert sort fold_right].
  - constructor.
  - now apply insert_sorted.
Qed.

Lemma insert_stable (v : R) (x : A) (l : list A) :
  filter (fun a => Req_bool (key a) v) (insert comparefn x l)
  = filter (fun a => Req_bool (key a) v) (x :: l).
Proof.
  induction l as [| y l IH]; [reflexivity |].
  cbn [insert]. destruct (comparefn x y >? 0)%js eqn:Hcmp; [| reflexivity].
  apply comparefn_key in Hcmp.
  cbn [filter] in *. rewrite IH.
  unfold Req_bool.
  destruct (Req_dec_T (key x) v), (Req_dec_T (key y) v);
    try reflexivity; lra.
Qed.

Lemma sort_stable (v : R) (l : list A) :
  filter (fun a => Req_bool (key a) v) (sort comparefn l)
  = filter (fun a => Req_bool (key a) v) l.
Proof.
  induction l as [| x l IH]; [reflexivity |].
  cbn [sort fold_right]. fold (sort comparefn l).
  rewrite insert_stable. cbn [filter]. now rewrite IH.
Qed.

End SortByKey.

Lemma compareDebts_avalanche (a b : Debt) :
  (compareDebts avalanche a b >? 0)%js = true
  <-> - interestRate b < - interestRate a.
Proof.
  cbn [compareDebts]. rewrite sub_Fin. unfold gt, lt.
  destruct (Rlt_dec 0 (interestRate b - interestRate a));
    split; intros H; try reflexivity; try discriminate; lra.
Qed.

Lemma compareDebts_snowball (a b : Debt) :
  (compareDebts snowball a b >? 0)%js = true <-> balance b < balance a.
Proof.
  cbn [compareDebts]. rewrite sub_Fin. unfold gt, lt.
  destruct (Rlt_dec 0 (balance a - balance b));
    split; intros H; try reflexivity; try discriminate; lra.
Qed.

Lemma StronglySorted_mono (A : Type) (P Q : A -> A -> Prop) (l : list A) :
  (forall a b, P a b -> Q a b) -> StronglySorted P l -> StronglySorted Q l.
Proof.
  intros HPQ. induction 1 as [| x l Hs IH Hall]; constructor.
  - exact IH.
  - revert Hall. apply Forall_impl. intros b. apply HPQ.
Qed.

Lemma Req_bool_opp (x v : R) : Req_bool (- x) (- v) = Req_bool x v.
Proof.
  unfold Req_bool.
  destruct (Req_dec_T (- x) (- v)), (Req_dec_T x v); try reflexivity; lra.
Qed.

Lemma sortedDebts_avalanche_spec (debts : list Debt) :
  Permutation (sortedDebts avalanche debts) debts
  /\ StronglySorted (fun a b => interestRate b <= interestRate a)
       (sortedDebts avalanche debts)
  /\ forall v, filter (has_rate v) (sortedDebts avalanche debts)
               = filter (has_rate v) debts.
Proof.
  unfold sortedDebts. split; [| split].
  - apply sort_perm.
  - apply StronglySorted_mono
      with (P := fun a b => - interestRate a <= - interestRate b).
    + intros a b H. lra.
    + apply sort_sorted. exact compareDebts_avalanche.
  - intros v.
    rewrite (filter_ext (has_rate v)
               (fun d => Req_bool (- interestRate d) (- v)))
      by (intros d; unfold has_rate; now rewrite Req_bool_opp).
    rewrite (filter_ext (has_rate v)
               (fun d => Req_bool (- interestRate d) (- v)))
      by (intros d; unfold has_rate; now rewrite Req_bool_opp).
    apply sort_stable with (key := fun d => - interestRate d).
    exact compareDebts_avalanche.
Qed.

Lemma sortedDebts_snowball_spec (debts : list Debt) :
  Permutation (sortedDebts snowball debts) debts
  /\ StronglySorted (fun a b => balance a <= balance b)
       (sortedDebts snowball debts)
  /\ forall v, filter (has_balance v) (sortedDebts snowball debts)
               = filter (has_balance v) debts.
Proof.
  unfold sortedDebts. split; [| split].
  - apply sort_perm.
  - apply sort_sorted with (key := balance). exact compareDebts_snowball.
  - intros v. apply sort_stable with (key := balance).
    exact compareDebts_snowball.
Qed.

(** Evaluating a sort of concrete debts: every comparison is decided. *)
Ltac decide_comparisons :=
  repeat (cbn [sortedDebts sort fold_right insert compareDebts
               interestRate balance sub add neg gt lt];
          match goal with
          | |- context [Rlt_dec ?a ?b] =>
              destruct (Rlt_dec a b); [try (exfalso; lra) | try (exfalso; lra)]
          end).

Lemma mockDebts_avalanche :
  map interestRate (sortedDebts avalanche mockDebts) = [18.99; 5.2; 4.5].
Proof. unfold mockDebts, mockCreditCard. decide_comparisons. reflexivity. Qed.

Lemma mockDebts_snowball :
  map balance (sortedDebts snowball mockDebts) = [5000; 15000; 28000].
Proof. unfold mockDebts, mockCreditCard. decide_comparisons. reflexivity. Qed.

(** C8.  For every list of debts the avalanche order is by interest rate,
    highest first, and the snowball order is by balance, lowest first; both
    are permutations of the input, and debts with the same rate (with the
    same balance) keep their input order.  Rates 18.99, 4.5, 5.2 come out
    as 18.99, 5.2, 4.5 and balances 5000, 28000, 15000 as 5000, 15000,
    28000. *)
Theorem sortedDebts_order :
  (forall debts : list Debt,
      Permutation (sortedDebts avalanche debts) debts
      /\ StronglySorted (fun a b => interestRate b <= interestRate a)
           (sortedDebts avalanche debts)
      /\ forall v, filter (has_rate v) (sortedDebts avalanche debts)
                   = filter (has_rate v) debts)
  /\ (forall debts : list Debt,
         Permutation (sortedDebts snowball debts) debts
         /\ StronglySorted (fun a b => balance a <= balance b)
              (sortedDebts snowball debts)
         /\ forall v, filter (has_balance v) (sortedDebts snowball debts)
                      = filter (has_balance v) debts)
  /\ map interestRate (sortedDebts avalanche mockDebts) = [18.99; 5.2; 4.5]
  /\ map balance (sortedDebts snowball mockDebts) = [5000; 15000; 28000].
Proof.
  split; [exact sortedDebts_avalanche_spec |].
  split; [exact sortedDebts_snowball_spec |].
  split; [exact mockDebts_avalanche | exact mockDebts_snowball].
Qed.

(** ** The payoff plan *)

Lemma map_mapi_from (A B C : Type) (f : A -> nat -> B) (g : B -> C)
      (index : nat) (l : list A) :
  map g (mapi_from f index l) = mapi_from (fun x k => g (f x k)) index l.
Proof.
  revert index. induction l as [| x l IH]; intros index; simpl.
  - reflexivity.
  - now rewrite IH.
Qed.

Lemma mapi_from_fst (A : Type) (index : nat) (l : list A) :
  mapi_from (fun x _ => x) index l = l.
Proof.
  revert index. induction l as [| x l IH]; intros index; simpl.
  - reflexivity.
  - now rewrite IH.
Qed.

Lemma mapi_from_index (A : Type) (index : nat) (l : list A) :
  mapi_from (fun _ k => (k + 1)%nat) index l
  = seq (index + 1) (length l).
Proof.
  revert index. induction l as [| x l IH]; intros index; simpl.
  - reflexivity.
  - now rewrite IH.
Qed.

Lemma mapi_from_later (A : Type) (first : R) (index : nat) (l : list A) :
  mapi_from (fun _ k => if Nat.eqb k 0 then first else 0) (S index) l
  = repeat 0 (length l).
Proof.
  revert index. induction l as [| x l IH]; intros index; simpl.
  - reflexivity.
  - now rewrite IH.
Qed.

Lemma sum_extra_map (plan : list PlanEntry) :
  sum_extra plan = fold_right Rplus 0 (map plan_extraPayment plan).
Proof.
  induction plan as [| e plan IH]; simpl.
  - reflexivity.
  - now rewrite IH.
Qed.

Lemma sum_repeat_0 (n : nat) : fold_right Rplus 0 (repeat 0 n) = 0.
Proof.
  induction n as [| n IH]; simpl.
  - reflexivity.
  - rewrite IH. lra.
Qed.

Lemma payoffPlan_debts (strategy : Strategy) (debts : list Debt) :
  map plan_debt (payoffPlan strategy debts) = sortedDebts strategy debts.
Proof.
  unfold payoffPlan, mapi. rewrite map_mapi_from. cbn [plan_debt].
  apply mapi_from_fst.
Qed.

Lemma sortedDebts_perm (strategy : Strategy) (debts : list Debt) :
  Permutation (sortedDebts strategy debts) debts.
Proof. unfold sortedDebts. apply sort_perm. Qed.

Lemma payoffPlan_order (strategy : Strategy) (debts : list Debt) :
  map payoffOrder (payoffPlan strategy debts) = seq 1 (length debts).
Proof.
  unfold payoffPlan, mapi. rewrite map_mapi_from. cbn [payoffOrder].
  rewrite mapi_from_index.
  now rewrite (Permutation_length (sortedDebts_perm strategy debts)).
Qed.

Lemma payoffPlan_extras (strategy : Strategy) (debts : list Debt) :
  map plan_extraPayment (payoffPlan strategy debts)
  = match sortedDebts strategy debts with
    | [] => []
    | _ :: rest => extraPayment :: repeat 0 (length rest)
    end.
Proof.
  unfold payoffPlan, mapi. rewrite map_mapi_from. cbn [plan_extraPayment].
  destruct (sortedDebts strategy debts) as [| first rest]; [reflexivity |].
  cbn [mapi_from Nat.eqb]. now rewrite mapi_from_later.
Qed.

Lemma Forall_mapi_from (A B : Type) (f : A -> nat -> B) (P : B -> Prop)
      (index : nat) (l : list A) :
  (forall x k, P (f x k)) -> Forall P (mapi_from f index l).
Proof.
  intros HP. revert index. induction l as [| x l IH]; intros index; simpl.
  - constructor.
  - constructor; [apply HP | apply IH].
Qed.

Lemma payoffPlan_months (strategy : Strategy) (debts : list Debt) :
  Forall (fun e => monthsToPayoff e
                   = calculatePayoffTime (plan_debt e) (plan_extraPayment e))
         (payoffPlan strategy debts).
Proof.
  unfold payoffPlan, mapi. apply Forall_mapi_from.
  intros debt index. reflexivity.
Qed.

(** C10, as stated, fails on the empty list of debts: the plan is empty
    and the extra payments assigned add up to 0, not to the budget of
    500. *)
Lemma empty_plan_assigns_nothing :
  payoffPlan avalanche [] = []
  /\ payoffPlan snowball [] = []
  /\ sum_extra (payoffPlan avalanche []) <> extraPayment
  /\ sum_extra (payoffPlan snowball []) <> extraPayment.
Proof.
  repeat split; unfold extraPayment; simpl; lra.
Qed.

(** C10, amended.  For every list of debts and either strategy the plan
    lists the debts in sorted order, a permutation of the input; the
    payoff orders are 1..n in list order; the first entry carries the whole
    extra budget and every other entry carries 0; and when the list is not
    empty the extra payments assigned add up to the budget. *)
Theorem payoffPlan_shape (strategy : Strategy) (debts : list Debt) :
  map plan_debt (payoffPlan strategy debts) = sortedDebts strategy debts
  /\ Permutation (map plan_debt (payoffPlan strategy debts)) debts
  /\ map payoffOrder (payoffPlan strategy debts) = seq 1 (length debts)
  /\ (forall first rest,
         payoffPlan strategy debts = first :: rest ->
         plan_extraPayment first = extraPayment
         /\ Forall (fun e => plan_extraPayment e = 0) rest)
  /\ (debts <> [] -> sum_extra (payoffPlan strategy debts) = extraPayment).
Proof.
  pose proof (payoffPlan_extras strategy debts) as Hextras.
  pose proof (payoffPlan_debts strategy debts) as Hdebts.
  split; [exact Hdebts |].
  split; [rewrite Hdebts; apply sortedDebts_perm |].
  split; [apply payoffPlan_order |].
  split.
  - intros first rest Hplan. rewrite Hplan in Hextras, Hdebts.
    destruct (sortedDebts strategy debts) as [| d ds]; [discriminate |].
    cbn [map] in Hextras. injection Hextras as Hfirst Hrest.
    split; [exact Hfirst |].
    apply Forall_forall. intros e He.
    apply (in_map plan_extraPayment) in He. rewrite Hrest in He.
    now apply repeat_spec in He.
  - intros Hne. rewrite sum_extra_map, Hextras.
    destruct (sortedDebts strategy debts) as [| d ds] eqn:Hsorted.
    + exfalso. apply Hne.
      apply Permutation_nil. rewrite <- Hsorted.
      apply sortedDebts_perm.
    + cbn [fold_right]. rewrite sum_repeat_0. lra.
Qed.

Lemma payoffPlan_shape_witness :
  sum_extra (payoffPlan avalanche mockDebts) = extraPayment.
Proof.
  apply (payoffPlan_shape avalanche mockDebts). discriminate.
Defined.

(** ** Growth projection *)

Lemma monthly_return_js (metrics : FIREMetrics) :
  (expectedReturn metrics / 100 / 12)%js
  = Fin (expectedReturn metrics / 100 / 12).
Proof. rewrite !div_Fin by lra. reflexivity. Qed.

Lemma calculateFutureValue_nonzero_rate (metrics : FIREMetrics) (years : nat) :
  expectedReturn metrics <> 0 ->
  calculateFutureValue metrics years
  = Math_round (Fin (FV (currentSavings metrics) (monthlyContribution metrics)
                        (expectedReturn metrics) years)).
Proof.
  intros Hr. unfold calculateFutureValue, FV.
  rewrite monthly_return_js, add_Fin, Math_pow_Fin, sub_Fin.
  rewrite div_Fin by lra. rewrite !mul_Fin, add_Fin.
  destruct (Req_dec_T (expectedReturn metrics / 100 / 12) 0) as [H0 | _];
    [lra |].
  do 2 f_equal. field. lra.
Qed.

Lemma calculateFutureValue_zero_rate (metrics : FIREMetrics) (years : nat) :
  expectedReturn metrics = 0 ->
  calculateFutureValue metrics years = NaN.
Proof.
  intros Hr. unfold calculateFutureValue.
  rewrite monthly_return_js, add_Fin, Math_pow_Fin, sub_Fin, Hr.
  replace (0 / 100 / 12) with 0 by lra.
  replace (1 + 0) with 1 by lra.
  rewrite pow1. replace (1 - 1) with 0 by lra.
  rewrite div_zero_zero. reflexivity.
Qed.

Lemma Math_round_eq (x : R) (z : Z) :
  IZR z - 1 / 2 <= x < IZR z + 1 / 2 -> Math_round (Fin x) = Fin (IZR z).
Proof.
  intros H. unfold Math_round. do 2 f_equal. apply Zfloor_eq. lra.
Qed.

Lemma projectionData_nth (metrics : FIREMetrics) (year : nat) :
  (year <= yearsToRetirement metrics + 5)%nat ->
  nth_error (projectionData metrics) year
  = Some (projectionPoint metrics year).
Proof.
  intros Hyear. unfold projectionData.
  rewrite nth_error_map, nth_error_seq.
  destruct (Nat.ltb_spec year (yearsToRetirement metrics + 5 + 1));
    [reflexivity | lia].
Qed.

Lemma projectionData_length (metrics : FIREMetrics) :
  length (projectionData metrics) = (yearsToRetirement metrics + 5 + 1)%nat.
Proof. unfold projectionData. now rewrite length_map, length_seq. Qed.

Lemma mock_year_1_value :
  85905 + 1 / 2 < FV 57000 2000 7 1 < 85906.
Proof.
  unfold FV. destruct (Req_dec_T (7 / 100 / 12) 0); [lra |].
  simpl pow. lra.
Qed.

Lemma mock_year_1_path : calculateFutureValue mockFIREMetrics 1 = Fin 85906.
Proof.
  rewrite calculateFutureValue_nonzero_rate by (simpl; lra).
  cbn [currentSavings monthlyContribution expectedReturn mockFIREMetrics].
  apply Math_round_eq. pose proof mock_year_1_value. lra.
Qed.




Lemma mock_year_1_raised_value :
  92101 + 1 / 2 < FV 57000 (2000 + 500) 7 1 < 92102.
Proof.
  unfold FV. destruct (Req_dec_T (7 / 100 / 12) 0); [lra |].
  simpl pow. lra.
Qed.

(** C7.  The path labelled "With Extra $500/mo" does not follow the
    formula of its sibling "Current Path": with the sample metrics it is
    85906 + 6420 = 92326 at year 1, while [calculateFutureValue] with the
    contribution raised by 500 gives 92102 (and less than 92102 before
    rounding). *)
Lemma extra_path_not_the_formula :
  With_Extra (projectionPoint mockFIREMetrics 1) = Fin 92326
  /\ calculateFutureValue (raiseContribution mockFIREMetrics 500) 1
     = Fin 92102
  /\ With_Extra (projectionPoint mockFIREMetrics 1)
     <> calculateFutureValue (raiseContribution mockFIREMetrics 500) 1
  /\ With_Extra (projectionPoint mockFIREMetrics 1)
     <> Fin (FV 57000 (2000 + 500) 7 1).
Proof.
  assert (Hcode : With_Extra (projectionPoint mockFIREMetrics 1) = Fin 92326).
  { cbn [projectionPoint With_Extra]. rewrite mock_year_1_path.
    rewrite Math_pow_Fin, !mul_Fin, add_Fin. f_equal. simpl. lra. }
  assert (Hclaim :
    calculateFutureValue (raiseContribution mockFIREMetrics 500) 1
    = Fin 92102).
  { rewrite calculateFutureValue_nonzero_rate by (simpl; lra).
    cbn [currentSavings monthlyContribution expectedReturn mockFIREMetrics
         raiseContribution].
    apply Math_round_eq. pose proof mock_year_1_raised_value. lra. }
  repeat split.
  - exact Hcode.
  - exact Hclaim.
  - rewrite Hcode, Hclaim. intros H. injection H as H. lra.
  - rewrite Hcode. intros H. injection H as H.
    pose proof mock_year_1_raised_value. lra.
Qed.

(** ** Monthly amount needed for a goal *)

Section GoalFacts.
Variable Date : Type.
Variable differenceInDays : Date -> Date -> Z.

Lemma calculateMonthlyNeeded_value (w : World Date)
      (goal : FinancialGoal Date) :
  calculateMonthlyNeeded differenceInDays w goal
  = Fin ((targetAmount goal - currentAmount goal)
         / Rmax 1 (IZR (differenceInDays (targetDate goal) (clock w)) / 30)).
Proof.
  unfold calculateMonthlyNeeded, new_Date.
  rewrite sub_Fin, div_Fin by lra. rewrite Math_max_Fin.
  rewrite div_Fin; [reflexivity |].
  pose proof
    (Rmax_l 1 (IZR (differenceInDays (targetDate goal) (clock w)) / 30)).
  lra.
Qed.

Lemma calculateMonthlyNeeded_days (w1 w2 : World Date)
      (goal : FinancialGoal Date) :
  differenceInDays (targetDate goal) (clock w1)
  = differenceInDays (targetDate goal) (clock w2) ->
  calculateMonthlyNeeded differenceInDays w1 goal
  = calculateMonthlyNeeded differenceInDays w2 goal.
Proof. intros H. rewrite !calculateMonthlyNeeded_value. now rewrite H. Qed.

End GoalFacts.

Lemma days_emergencyGoal_atEpoch :
  differenceInDays_ms (targetDate emergencyGoal) (clock atEpoch) = 360%Z.
Proof. reflexivity. Qed.

Lemma days_emergencyGoal_sixtyDaysLater :
  differenceInDays_ms (targetDate emergencyGoal) (clock sixtyDaysLater)
  = 300%Z.
Proof. reflexivity. Qed.

Lemma days_emergencyGoal_tenDaysBefore :
  differenceInDays_ms (targetDate emergencyGoal) (clock tenDaysBefore)
  = 10%Z.
Proof. reflexivity. Qed.

Lemma Rmax_1_360 : Rmax 1 (360 / 30) = 12.
Proof. unfold Rmax. destruct (Rle_dec 1 (360 / 30)); lra. Qed.

Lemma Rmax_1_300 : Rmax 1 (300 / 30) = 10.
Proof. unfold Rmax. destruct (Rle_dec 1 (300 / 30)); lra. Qed.

(** The sample goal, 360 days ahead: 10000 / 12 a month. *)
Lemma emergencyGoal_atEpoch :
  calculateMonthlyNeeded differenceInDays_ms atEpoch emergencyGoal
  = Fin (10000 / 12).
Proof.
  rewrite calculateMonthlyNeeded_value, days_emergencyGoal_atEpoch.
  cbn [targetAmount currentAmount emergencyGoal]. rewrite Rmax_1_360.
  f_equal. lra.
Qed.

Lemma emergencyGoal_sixtyDaysLater :
  calculateMonthlyNeeded differenceInDays_ms sixtyDaysLater emergencyGoal
  = Fin 1000.
Proof.
  rewrite calculateMonthlyNeeded_value, days_emergencyGoal_sixtyDaysLater.
  cbn [targetAmount currentAmount emergencyGoal]. rewrite Rmax_1_300.
  f_equal. lra.
Qed.

Lemma overfundedGoal_atEpoch :
  calculateMonthlyNeeded differenceInDays_ms atEpoch overfundedGoal
  = Fin (- 2000 / 12).
Proof.
  rewrite calculateMonthlyNeeded_value.
  change (differenceInDays_ms (targetDate overfundedGoal) (clock atEpoch))
    with 360%Z.
  cbn [targetAmount currentAmount overfundedGoal]. rewrite Rmax_1_360.
  f_equal. lra.
Qed.

(** C5, as stated, fails: for the goal with target 18000 and 20000 already
    saved, 360 days before the deadline, the function returns
    -2000 / 12, a negative amount, where the claim's formula gives 0. *)
Lemma overfunded_goal_negative :
  targetAmount overfundedGoal <= currentAmount overfundedGoal
  /\ requiredMonthly 18000 20000 360 = 0
  /\ calculateMonthlyNeeded differenceInDays_ms atEpoch overfundedGoal
     = Fin (- 2000 / 12)
  /\ calculateMonthlyNeeded differenceInDays_ms atEpoch overfundedGoal
     <> Fin (requiredMonthly 18000 20000 360).
Proof.
  assert (Hspec : requiredMonthly 18000 20000 360 = 0).
  { unfold requiredMonthly. rewrite Rmax_1_360.
    unfold Rmax. destruct (Rle_dec 0 (18000 - 20000)); lra. }
  repeat split.
  - simpl. lra.
  - exact Hspec.
  - exact overfundedGoal_atEpoch.
  - rewrite overfundedGoal_atEpoch, Hspec. intros H. injection H as H. lra.
Qed.

(** C5, amended.  For every goal the monthly amount is
    (targetAmount - currentAmount) / max (1, days / 30), where days is the
    number of days from the clock reading to the target date.  When
    currentAmount <= targetAmount this is
    max (0, targetAmount - currentAmount) / max (1, days / 30), and it is 0
    when the two amounts are equal; when the deadline is past or at most 30
    days ahead the divisor is 1. *)
Theorem monthly_needed_unclamped
        (Date : Type) (differenceInDays : Date -> Date -> Z)
        (w : World Date) (goal : FinancialGoal Date) :
  let days := differenceInDays (targetDate goal) (clock w) in
  calculateMonthlyNeeded differenceInDays w goal
  = Fin ((targetAmount goal - currentAmount goal)
         / Rmax 1 (IZR days / 30))
  /\ (currentAmount goal <= targetAmount goal ->
      calculateMonthlyNeeded differenceInDays w goal
      = Fin (requiredMonthly (targetAmount goal) (currentAmount goal) days))
  /\ (currentAmount goal = targetAmount goal ->
      calculateMonthlyNeeded differenceInDays w goal = Fin 0)
  /\ ((days <= 30)%Z ->
      calculateMonthlyNeeded differenceInDays w goal
      = Fin (targetAmount goal - currentAmount goal)).
Proof.
  intros days. rewrite calculateMonthlyNeeded_value. fold days.
  assert (Hmax : 1 <= Rmax 1 (IZR days / 30)) by apply Rmax_l.
  split; [reflexivity |]. split; [| split].
  - intros Hle. unfold requiredMonthly.
    rewrite (Rmax_right 0 (targetAmount goal - currentAmount goal)) by lra.
    reflexivity.
  - intros Heq. f_equal. rewrite Heq. field. lra.
  - intros Hdays. apply IZR_le in Hdays.
    rewrite (Rmax_left 1 (IZR days / 30)) by lra.
    f_equal. field.
Qed.

Lemma monthly_needed_unclamped_witness :
  calculateMonthlyNeeded differenceInDays_ms tenDaysBefore emergencyGoal
  = Fin (requiredMonthly 18000 8000 10)
  /\ calculateMonthlyNeeded differenceInDays_ms tenDaysBefore emergencyGoal
     = Fin (18000 - 8000).
Proof.
  pose proof (monthly_needed_unclamped Z differenceInDays_ms
                tenDaysBefore emergencyGoal) as [_ [Hle [_ Hdays]]].
  split.
  - apply Hle. simpl. lra.
  - apply Hdays. rewrite days_emergencyGoal_tenDaysBefore. lia.
Defined.

(** C9, as stated, fails for the goal calculation: the same goal gives
    10000 / 12 when the clock is 360 days before the deadline and 1000 when
    it is 300 days before; the function takes no date argument. *)
Lemma same_goal_other_clock :
  calculateMonthlyNeeded differenceInDays_ms atEpoch emergencyGoal
  = Fin (10000 / 12)
  /\ calculateMonthlyNeeded differenceInDays_ms sixtyDaysLater emergencyGoal
     = Fin 1000
  /\ calculateMonthlyNeeded differenceInDays_ms atEpoch emergencyGoal
     <> calculateMonthlyNeeded differenceInDays_ms sixtyDaysLater
          emergencyGoal.
Proof.
  split; [exact emergencyGoal_atEpoch |].
  split; [exact emergencyGoal_sixtyDaysLater |].
  rewrite emergencyGoal_atEpoch, emergencyGoal_sixtyDaysLater.
  intros H. injection H as H. lra.
Qed.

(** C9, amended.  The monthly amount needed for a goal is not determined
    by the goal alone: the function reads the system clock.  Two readings
    of the clock give the same amount for a goal exactly when nothing
    remains to be saved, or the two readings are the same number of days
    from the target date, or both are 30 days or less from it (or past
    it). *)
Theorem monthly_needed_same_iff
        (Date : Type) (differenceInDays : Date -> Date -> Z)
        (w1 w2 : World Date) (goal : FinancialGoal Date) :
  calculateMonthlyNeeded differenceInDays w1 goal
  = calculateMonthlyNeeded differenceInDays w2 goal
  <-> targetAmount goal = currentAmount goal
      \/ differenceInDays (targetDate goal) (clock w1)
         = differenceInDays (targetDate goal) (clock w2)
      \/ ((differenceInDays (targetDate goal) (clock w1) <= 30)%Z
          /\ (differenceInDays (targetDate goal) (clock w2) <= 30)%Z).
Proof.
  rewrite !calculateMonthlyNeeded_value.
  set (d1 := differenceInDays (targetDate goal) (clock w1)).
  set (d2 := differenceInDays (targetDate goal) (clock w2)).
  set (remaining := targetAmount goal - currentAmount goal).
  assert (Hm1 : 1 <= Rmax 1 (IZR d1 / 30)) by apply Rmax_l.
  assert (Hm2 : 1 <= Rmax 1 (IZR d2 / 30)) by apply Rmax_l.
  assert (Hmonths : Rmax 1 (IZR d1 / 30) = Rmax 1 (IZR d2 / 30)
                    <-> d1 = d2 \/ ((d1 <= 30)%Z /\ (d2 <= 30)%Z)).
  { split.
    - intros Heq.
      destruct (Z_le_gt_dec d1 30) as [H1 | H1];
        destruct (Z_le_gt_dec d2 30) as [H2 | H2].
      + right. now split.
      + exfalso. apply IZR_le in H1. apply Z.gt_lt, IZR_lt in H2.
        rewrite (Rmax_left 1 (IZR d1 / 30)) in Heq by lra.
        rewrite (Rmax_right 1 (IZR d2 / 30)) in Heq by lra. lra.
      + exfalso. apply Z.gt_lt, IZR_lt in H1. apply IZR_le in H2.
        rewrite (Rmax_right 1 (IZR d1 / 30)) in Heq by lra.
        rewrite (Rmax_left 1 (IZR d2 / 30)) in Heq by lra. lra.
      + left. apply Z.gt_lt, IZR_lt in H1. apply Z.gt_lt, IZR_lt in H2.
        rewrite (Rmax_right 1 (IZR d1 / 30)) in Heq by lra.
        rewrite (Rmax_right 1 (IZR d2 / 30)) in Heq by lra.
        apply eq_IZR. lra.
    - intros [Heq | [H1 H2]].
      + now rewrite Heq.
      + apply IZR_le in H1. apply IZR_le in H2.
        rewrite (Rmax_left 1 (IZR d1 / 30)) by lra.
        rewrite (Rmax_left 1 (IZR d2 / 30)) by lra. reflexivity. }
  split.
  - intros Heq. injection Heq as Heq.
    destruct (Req_dec_T remaining 0) as [H0 | Hne].
    + left. unfold remaining in H0. lra.
    + right. apply Hmonths.
      assert (Hinv : / Rmax 1 (IZR d1 / 30) = / Rmax 1 (IZR d2 / 30)).
      { apply (Rmult_eq_reg_l remaining); [exact Heq | exact Hne]. }
      apply (f_equal Rinv) in Hinv. now rewrite !Rinv_inv in Hinv.
  - intros [H0 | Hd].
    + replace remaining with 0 by (unfold remaining; lra).
      f_equal. unfold Rdiv. now rewrite !Rmult_0_l.
    + apply Hmonths in Hd. now rewrite Hd.
Qed.

(** ** Health score *)

Lemma fold_left_add_Fin (A : Type) (f : A -> R) (l : list A) (acc : R) :
  fold_left (fun sum x => (sum + f x)%js) l (Fin acc)
  = Fin (acc + Rsum (map f l)).
Proof.
  revert acc. induction l as [| x l IH]; intros acc; simpl.
  - f_equal. lra.
  - rewrite IH. f_equal. lra.
Qed.

Lemma totalIncome_Fin (profile : UserFinancialProfile) :
  totalIncome profile = Fin (activeIncome profile).
Proof.
  unfold totalIncome, activeIncome.
  assert (H : forall l acc,
             fold_left (fun sum inc => if isActive inc
                                       then (sum + income_amount inc)%js
                                       else sum) l (Fin acc)
             = Fin (acc + Rsum (map income_amount (filter isActive l)))).
  { induction l as [| x l IH]; intros acc; simpl.
    - f_equal. lra.
    - destruct (isActive x); simpl; rewrite IH; f_equal; lra. }
  rewrite H. f_equal. lra.
Qed.

Lemma totalExpenses_Fin (profile : UserFinancialProfile) :
  totalExpenses profile = Fin (expenseSum profile).
Proof.
  unfold totalExpenses, expenseSum. rewrite fold_left_add_Fin. f_equal. lra.
Qed.

Lemma totalDebt_Fin (profile : UserFinancialProfile) :
  totalDebt (debts profile) = Fin (debtSum profile).
Proof.
  unfold totalDebt, debtSum. rewrite fold_left_add_Fin. f_equal. lra.
Qed.

Lemma totalAssets_Fin (profile : UserFinancialProfile) :
  totalAssets profile = Fin (assetSum profile).
Proof.
  unfold totalAssets, assetSum. rewrite fold_left_add_Fin. f_equal. lra.
Qed.

Lemma salaryStopped_totalIncome :
  totalIncome salaryStoppedProfile = Fin 1200.
Proof. unfold totalIncome. simpl. f_equal. lra. Qed.

Lemma salaryStopped_totalExpenses :
  totalExpenses salaryStoppedProfile = Fin 3920.
Proof. unfold totalExpenses. simpl. f_equal. lra. Qed.

Lemma salaryStopped_totalDebt :
  totalDebt (debts salaryStoppedProfile) = Fin 48000.
Proof. unfold totalDebt. simpl. f_equal. lra. Qed.

Lemma salaryStopped_totalAssets :
  totalAssets salaryStoppedProfile = Fin 88500.
Proof. unfold totalAssets. simpl. f_equal. lra. Qed.

(** Deciding the comparisons of [Rmin], [Rmax] and [Rabs] at concrete
    values, innermost first. *)
Ltac decide_min_max :=
  unfold Rmin, Rmax, Rabs;
  repeat match goal with
         | |- context [Rle_dec ?a ?b] =>
             lazymatch a with
             | context [Rle_dec _ _] => fail
             | _ => lazymatch b with
                    | context [Rle_dec _ _] => fail
                    | _ => destruct (Rle_dec a b); try (exfalso; lra)
                    end
             end
         | |- context [Rcase_abs ?a] =>
             destruct (Rcase_abs a); try (exfalso; lra)
         end;
  try lra.

Lemma salaryStopped_scores :
  scores salaryStoppedProfile
  = {| Scores.emergencyFund := Fin (400 / 9);
       Scores.debtToIncome := Fin 0;
       Scores.savingsRate := Fin (- 3400 / 3);
       Scores.netWorth := Fin (295 / 8);
       Scores.creditScore := Fin (1440 / 17);
       Scores.budgetAdherence := Fin 90 |}.
Proof.
  unfold scores.
  rewrite salaryStopped_totalIncome, salaryStopped_totalExpenses,
    salaryStopped_totalDebt, salaryStopped_totalAssets.
  cbn [emergencyFundCurrent emergencyFundTarget creditScore budgetAllocation
       actual alloc_needs needs salaryStoppedProfile].
  unfold truthy. destruct (Req_dec_T 720 0) as [H | _]; [lra |].
  rewrite !sub_Fin, !mul_Fin, Math_max_Fin.
  rewrite !div_Fin by (decide_min_max; lra).
  rewrite !mul_Fin, !sub_Fin, !Math_min_Fin, Math_max_Fin.
  cbn [Math_abs]. rewrite !mul_Fin, !sub_Fin.
  f_equal; f_equal; decide_min_max.
Qed.

(** C4 at the sample profile with the salary stopped.  The active income
    (1200) and the emergency-fund target (18000) are positive, yet the
    savings-rate score is -3400 / 3 and the overall score is -193: neither
    lies in the range 0..100 that the comment on the scoring factors
    announces. *)
Theorem salaryStopped_scores_out_of_range :
  totalIncome salaryStoppedProfile = Fin 1200
  /\ 0 < emergencyFundTarget salaryStoppedProfile
  /\ Scores.savingsRate (scores salaryStoppedProfile) = Fin (- 3400 / 3)
  /\ ~ in_0_100 (Scores.savingsRate (scores salaryStoppedProfile))
  /\ overallScore salaryStoppedProfile = Fin (- 193)
  /\ ~ in_0_100 (overallScore salaryStoppedProfile).
Proof.
  assert (Hoverall : overallScore salaryStoppedProfile = Fin (- 193)).
  { unfold overallScore. rewrite salaryStopped_scores.
    cbn [Scores.emergencyFund Scores.debtToIncome Scores.savingsRate
         Scores.netWorth Scores.creditScore Scores.budgetAdherence].
    rewrite !mul_Fin, !add_Fin.
    change (- 193) with (IZR (- 193)). apply Math_round_eq. lra. }
  split; [exact salaryStopped_totalIncome |].
  split; [simpl; lra |].
  rewrite Hoverall, salaryStopped_scores.
  cbn [Scores.savingsRate in_0_100].
  repeat split; lra.
Qed.

(** The weights of the overall score add up to 1. *)
Lemma weights_sum_to_one : 0.25 + 0.20 + 0.20 + 0.15 + 0.10 + 0.10 = 1.
Proof. lra. Qed.

Lemma Math_round_in_0_100 (x : R) :
  0 <= x <= 100 -> in_0_100 (Math_round (Fin x)).
Proof.
  intros [H0 H100]. cbn [Math_round in_0_100].
  pose proof (Zfloor_bound (x + 1 / 2)) as [Hlow Hup].
  split.
  - apply IZR_le. apply Zfloor_lub. simpl. lra.
  - assert (Hz : (Zfloor (x + 1 / 2) < 101)%Z) by (apply lt_IZR; lra).
    apply IZR_le. lia.
Qed.

Lemma ratio_nonneg (x y : R) : 0 <= x -> 0 < y -> 0 <= x / y.
Proof.
  intros Hx Hy. apply Rmult_le_pos; [exact Hx |].
  left. now apply Rinv_0_lt_compat.
Qed.

(** X22.  Where the sub-scores and the overall score do stay within
    0..100 (the profile has positive active income and target): the
    expenses do not exceed the active income, the needs share is within 50
    points of its target, the credit score is between 0 and 850, and no
    amount is negative. *)
Lemma scores_in_range (profile : UserFinancialProfile) :
  0 < activeIncome profile ->
  0 < emergencyFundTarget profile ->
  0 <= emergencyFundCurrent profile ->
  0 <= debtSum profile ->
  0 <= assetSum profile ->
  expenseSum profile <= activeIncome profile ->
  (forall score, creditScore profile = Some score -> 0 <= score <= 850) ->
  Rabs (alloc_needs (actual (budgetAllocation profile))
        - needs (budgetAllocation profile)) <= 50 ->
  in_0_100 (Scores.emergencyFund (scores profile))
  /\ in_0_100 (Scores.debtToIncome (scores profile))
  /\ in_0_100 (Scores.savingsRate (scores profile))
  /\ in_0_100 (Scores.netWorth (scores profile))
  /\ in_0_100 (Scores.creditScore (scores profile))
  /\ in_0_100 (Scores.budgetAdherence (scores profile))
  /\ in_0_100 (overallScore profile).
Proof.
  intros Hinc Htarget Hcur Hdebt Hassets Hexp Hcredit Hneeds.
  set (dev := Rabs (alloc_needs (actual (budgetAllocation profile))
                    - needs (budgetAllocation profile))) in *.
  assert (Hdev : 0 <= dev) by apply Rabs_pos.
  assert (Hmax : 1 <= Rmax 1 (debtSum profile)) by apply Rmax_l.
  assert (Hef : 0 <= emergencyFundCurrent profile
                     / emergencyFundTarget profile)
    by (now apply ratio_nonneg).
  assert (Hdti : 0 <= debtSum profile / (activeIncome profile * 12))
    by (apply ratio_nonneg; lra).
  assert (Hsr : 0 <= (activeIncome profile - expenseSum profile)
                     / activeIncome profile)
    by (apply ratio_nonneg; lra).
  assert (Hnw : 0 <= assetSum profile / Rmax 1 (debtSum profile))
    by (apply ratio_nonneg; lra).
  assert (Hscores :
    exists ef dti sr nw cs ba,
      scores profile = Scores.mk (Fin ef) (Fin dti) (Fin sr) (Fin nw)
                                 (Fin cs) (Fin ba)
      /\ 0 <= ef <= 100 /\ 0 <= dti <= 100 /\ 0 <= sr <= 100
      /\ 0 <= nw <= 100 /\ 0 <= cs <= 100 /\ 0 <= ba <= 100).
  { exists (Rmin 100 (emergencyFundCurrent profile
                      / emergencyFundTarget profile * 100)),
           (Rmax 0 (100 - debtSum profile / (activeIncome profile * 12) * 100)),
           (Rmin 100 ((activeIncome profile - expenseSum profile)
                      / activeIncome profile * 100 * 5)),
           (Rmin 100 (assetSum profile / Rmax 1 (debtSum profile) * 20)),
           (match creditScore profile with
            | Some score => if Req_dec_T score 0 then 50
                            else score / 850 * 100
            | None => 50
            end),
           (100 - dev * 2).
    split.
    - unfold scores.
      rewrite totalIncome_Fin, totalExpenses_Fin, totalDebt_Fin,
        totalAssets_Fin.
      rewrite Math_max_Fin, !mul_Fin, !sub_Fin.
      rewrite !div_Fin by lra. rewrite !mul_Fin, !sub_Fin.
      rewrite !Math_min_Fin, Math_max_Fin. cbn [Math_abs].
      f_equal.
      destruct (creditScore profile) as [score |]; [| reflexivity].
      unfold truthy. destruct (Req_dec_T score 0); [reflexivity |].
      rewrite div_Fin by lra. now rewrite mul_Fin.
    - repeat split;
        try (apply Rmin_glb; nra); try apply Rmin_l;
        try apply Rmax_l; try (apply Rmax_lub; nra); try lra.
      + destruct (creditScore profile) as [score |]; [| lra].
        specialize (Hcredit score eq_refl).
        destruct (Req_dec_T score 0); lra.
      + destruct (creditScore profile) as [score |]; [| lra].
        specialize (Hcredit score eq_refl).
        destruct (Req_dec_T score 0); lra. }
  destruct Hscores as (ef & dti & sr & nw & cs & ba & Heq
                       & Hef' & Hdti' & Hsr' & Hnw' & Hcs' & Hba').
  unfold overallScore. rewrite Heq.
  cbn [Scores.emergencyFund Scores.debtToIncome Scores.savingsRate
       Scores.netWorth Scores.creditScore Scores.budgetAdherence].
  rewrite !mul_Fin, !add_Fin.
  repeat (split; [cbn [in_0_100]; lra |]).
  apply Math_round_in_0_100. lra.
Qed.

(** * Further properties of the components *)

(** ** Months to payoff: further properties *)

Lemma ln_monotone (x y : R) : 0 < x -> x <= y -> ln x <= ln y.
Proof.
  intros Hx [Hlt | Heq].
  - left. now apply ln_increasing.
  - right. now rewrite Heq.
Qed.

Lemma le_number_Infinity (a : number) :
  a <> NaN -> (a <=? Infinity)%js = true.
Proof. destruct a; intros H; try reflexivity. contradiction. Qed.

Lemma calculatePayoffTime_not_NaN (debt : Debt) (extra : R) :
  0 <= balance debt ->
  0 < monthlyRate debt ->
  calculatePayoffTime debt extra <> NaN.
Proof.
  intros Hb Hr.
  destruct (Rle_dec (payment debt extra) (balance debt * monthlyRate debt))
    as [Hle | Hgt].
  - rewrite calculatePayoffTime_guard by exact Hle. discriminate.
  - rewrite calculatePayoffTime_convergent;
      [discriminate | exact Hb | unfold monthlyRate in Hr; lra | lra].
Qed.

(** X2.  For a debt with balance >= 0 and positive rate, paying more each
    month never lengthens the payoff: with extra1 <= extra2 the result for
    extra2 is at most the result for extra1 ([Infinity] included). *)
Theorem extra_payment_never_lengthens (debt : Debt) (extra1 extra2 : R) :
  0 <= balance debt ->
  0 < monthlyRate debt ->
  extra1 <= extra2 ->
  (calculatePayoffTime debt extra2 <=? calculatePayoffTime debt extra1)%js
  = true.
Proof.
  intros Hb Hr Hextra.
  assert (Hrate : 0 < interestRate debt) by (unfold monthlyRate in Hr; lra).
  assert (Hbr : 0 <= balance debt * monthlyRate debt)
    by (apply Rmult_le_pos; lra).
  destruct (Rle_dec (payment debt extra1) (balance debt * monthlyRate debt))
    as [Hle | Hgt].
  - rewrite (calculatePayoffTime_guard debt extra1) by exact Hle.
    apply le_number_Infinity. now apply calculatePayoffTime_not_NaN.
  - assert (Hp1 : balance debt * monthlyRate debt < payment debt extra1)
      by lra.
    assert (Hp2 : balance debt * monthlyRate debt < payment debt extra2)
      by (unfold payment in *; lra).
    rewrite !calculatePayoffTime_convergent by assumption.
    apply le_Fin_true, IZR_le. unfold closed_form_months. apply Zceil_le.
    pose proof (ln_1_plus_pos _ Hr) as Hln.
    apply Rmult_le_compat_r; [left; now apply Rinv_0_lt_compat |].
    apply ln_monotone.
    + apply Rdiv_lt_0_compat; lra.
    + set (p1 := payment debt extra1) in *.
      set (p2 := payment debt extra2) in *.
      set (i := balance debt * monthlyRate debt) in *.
      assert (Hp12 : p1 <= p2) by (unfold p1, p2, payment; lra).
      apply (Rmult_le_reg_r ((p2 - i) * (p1 - i))); [nra |].
      replace (p2 / (p2 - i) * ((p2 - i) * (p1 - i))) with (p2 * (p1 - i))
        by (field; lra).
      replace (p1 / (p1 - i) * ((p2 - i) * (p1 - i))) with (p1 * (p2 - i))
        by (field; lra).
      nra.
Qed.

Lemma extra_payment_never_lengthens_witness :
  (calculatePayoffTime mockCreditCard 250
   <=? calculatePayoffTime mockCreditCard 0)%js = true.
Proof.
  apply (extra_payment_never_lengthens mockCreditCard 0 250);
    unfold monthlyRate; simpl; lra.
Defined.

(** X3.  For a debt with balance >= 0, positive rate and a payment above
    the first month's interest, the result is 0 months exactly when the
    balance is 0, and at least 1 month otherwise. *)
Theorem payoff_time_zero_iff_no_balance (debt : Debt) (extra : R) :
  0 <= balance debt ->
  0 < monthlyRate debt ->
  balance debt * monthlyRate debt < payment debt extra ->
  (calculatePayoffTime debt extra = Fin 0 <-> balance debt = 0)
  /\ (0 < balance debt ->
      exists n : Z, calculatePayoffTime debt extra = Fin (IZR n) /\ (1 <= n)%Z).
Proof.
  intros Hb Hr Hp.
  assert (Hrate : 0 < interestRate debt) by (unfold monthlyRate in Hr; lra).
  rewrite calculatePayoffTime_convergent by assumption.
  pose proof (ln_1_plus_pos _ Hr) as Hln.
  set (r := monthlyRate debt) in *. set (p := payment debt extra) in *.
  set (b := balance debt) in *.
  assert (Hpos : 0 < b ->
                 (1 <= closed_form_months r p b)%Z).
  { intros Hb0. unfold closed_form_months.
    assert (Hbr : 0 < b * r) by (apply Rmult_lt_0_compat; lra).
    assert (Hratio : 1 < p / (p - b * r)).
    { apply (Rmult_lt_reg_r (p - b * r)); [lra |].
      replace (p / (p - b * r) * (p - b * r)) with p by (field; lra). lra. }
    assert (Hl : 0 < ln (p / (p - b * r)))
      by (rewrite <- ln_1; apply ln_increasing; lra).
    assert (Hq : 0 < ln (p / (p - b * r)) / ln (1 + r))
      by (apply Rdiv_lt_0_compat; assumption).
    pose proof (Zceil_bound (ln (p / (p - b * r)) / ln (1 + r))) as [_ Hup].
    assert (H0 : (0 < Zceil (ln (p / (p - b * r)) / ln (1 + r)))%Z)
      by (apply lt_IZR; lra).
    lia. }
  split.
  - split.
    + intros H. injection H as H. apply eq_IZR in H.
      destruct Hb as [Hb | Hb]; [| now symmetry].
      specialize (Hpos Hb). lia.
    + intros H0. do 2 f_equal. unfold closed_form_months.
      assert (Hp0 : 0 < p) by (rewrite H0 in Hp; lra).
      rewrite H0.
      replace (p / (p - 0 * r)) with 1 by (field; lra).
      rewrite ln_1. replace (0 / ln (1 + r)) with 0 by (field; lra).
      apply Zceil_eq. simpl. lra.
  - intros Hb0. eexists. split; [reflexivity | now apply Hpos].
Qed.

Lemma payoff_time_zero_iff_no_balance_witness :
  exists n : Z,
    calculatePayoffTime mockCreditCard 250 = Fin (IZR n) /\ (1 <= n)%Z.
Proof.
  apply (payoff_time_zero_iff_no_balance mockCreditCard 250);
    unfold monthlyRate, payment; simpl; lra.
Defined.

(** ** DebtStrategyCard: totals, chart rows and the plan *)

Lemma Rsum_perm (l l' : list R) : Permutation l l' -> Rsum l = Rsum l'.
Proof.
  induction 1 as [| x l l' _ IH | x y l | l l' l'' _ IH1 _ IH2]; simpl.
  - reflexivity.
  - now rewrite IH.
  - lra.
  - now rewrite IH1.
Qed.

Lemma totalDebt_sum (debts : list Debt) :
  totalDebt debts = Fin (Rsum (map balance debts)).
Proof. unfold totalDebt. rewrite fold_left_add_Fin. f_equal. lra. Qed.

Lemma totalMinimumPayment_sum (debts : list Debt) :
  totalMinimumPayment debts = Fin (Rsum (map minimumPayment debts)).
Proof.
  unfold totalMinimumPayment. rewrite fold_left_add_Fin. f_equal. lra.
Qed.

Lemma weighted_sum (debts : list Debt) :
  fold_left (fun sum debt => (sum + interestRate debt * balance debt)%js)
            debts (Fin 0)
  = Fin (Rsum (map (fun d => interestRate d * balance d) debts)).
Proof.
  rewrite (fold_left_add_Fin _ (fun d => interestRate d * balance d)).
  f_equal. lra.
Qed.

(** X4.  The average rate is a finite number exactly when the balances do
    not add up to 0; for an empty list of debts it is [NaN]. *)
Theorem weightedAPR_finite_iff (debts : list Debt) :
  (is_finite (weightedAPR debts) <-> Rsum (map balance debts) <> 0)
  /\ weightedAPR [] = NaN.
Proof.
  split.
  - unfold weightedAPR. rewrite weighted_sum, totalDebt_sum.
    destruct (Req_dec_T (Rsum (map balance debts)) 0) as [H0 | Hne].
    + rewrite H0. split; [| intros H; now contradiction H].
      unfold div, Rsign. destruct (Req_dec_T 0 0) as [_ | H]; [| lra].
      destruct (Rlt_dec _ 0); [intros []|].
      destruct (Rlt_dec 0 _); intros [].
    + rewrite div_Fin by exact Hne.
      split; [intros _; exact Hne | intros _; exact I].
  - unfold weightedAPR, totalDebt. simpl. apply div_zero_zero.
Qed.

Lemma weighted_sum_bounds (lo hi : R) (debts : list Debt) :
  Forall (fun d => 0 <= balance d /\ lo <= interestRate d <= hi) debts ->
  lo * Rsum (map balance debts)
  <= Rsum (map (fun d => interestRate d * balance d) debts)
  <= hi * Rsum (map balance debts).
Proof.
  induction 1 as [| d debts [Hb [Hlo Hhi]] _ IH]; simpl.
  - lra.
  - nra.
Qed.

(** X5.  When no balance is negative and the balances add up to a positive
    amount, the average rate lies between any lower and upper bound of the
    rates of the debts. *)
Theorem weightedAPR_between_rates (lo hi : R) (debts : list Debt) :
  Forall (fun d => 0 <= balance d /\ lo <= interestRate d <= hi) debts ->
  0 < Rsum (map balance debts) ->
  exists apr, weightedAPR debts = Fin apr /\ lo <= apr <= hi.
Proof.
  intros Hall Hpos.
  pose proof (weighted_sum_bounds lo hi debts Hall) as [Hlow Hup].
  unfold weightedAPR. rewrite weighted_sum, totalDebt_sum.
  rewrite div_Fin by lra. eexists. split; [reflexivity |].
  set (total := Rsum (map balance debts)) in *.
  set (weighted := Rsum (map (fun d => interestRate d * balance d) debts)) in *.
  split.
  - apply (Rmult_le_reg_r total); [exact Hpos |].
    replace (weighted / total * total) with weighted by (field; lra). lra.
  - apply (Rmult_le_reg_r total); [exact Hpos |].
    replace (weighted / total * total) with weighted by (field; lra). lra.
Qed.

Lemma weightedAPR_between_rates_witness :
  exists apr, weightedAPR mockDebts = Fin apr /\ 4.5 <= apr <= 18.99.
Proof.
  apply (weightedAPR_between_rates 4.5 18.99 mockDebts).
  - unfold mockDebts, mockCreditCard.
    repeat (constructor; [simpl; lra |]). constructor.
  - unfold mockDebts, mockCreditCard. simpl. lra.
Defined.

(** X6.  The chart and the payoff list agree: they have one row per debt,
    and row k of the chart carries the name of the debt of entry k of the
    plan and the same rank. *)
Theorem debtChartData_matches_plan (strategy : Strategy) (debts : list Debt) :
  length (debtChartData strategy debts) = length debts
  /\ map row_priority (debtChartData strategy debts)
     = map payoffOrder (payoffPlan strategy debts)
  /\ map row_name (debtChartData strategy debts)
     = map (fun item => debt_name (plan_debt item))
           (payoffPlan strategy debts)
  /\ map row_Balance (debtChartData strategy debts)
     = map (fun item => balance (plan_debt item))
           (payoffPlan strategy debts).
Proof.
  unfold debtChartData, payoffPlan, mapi.
  split; [| split; [| split]].
  - rewrite <- (length_map row_priority), map_mapi_from.
    cbn [row_priority]. rewrite mapi_from_index, length_seq.
    apply Permutation_length, sortedDebts_perm.
  - now rewrite !map_mapi_from.
  - now rewrite !map_mapi_from.
  - now rewrite !map_mapi_from.
Qed.

Lemma monthlyPay_sum (plan : list PlanEntry) (acc : R) :
  fold_left (fun sum item => (sum + monthlyPay item)%js) plan (Fin acc)
  = Fin (acc + Rsum (map (fun item => minimumPayment (plan_debt item)) plan)
         + Rsum (map plan_extraPayment plan)).
Proof.
  revert acc. induction plan as [| item plan IH]; intros acc.
  - simpl. f_equal. lra.
  - cbn [fold_left map].
    change (monthlyPay item)
      with (Fin (minimumPayment (plan_debt item) + plan_extraPayment item)).
    rewrite add_Fin, IH. f_equal. simpl. lra.
Qed.

(** X7.  For a non-empty list of debts the monthly payments shown in the
    plan add up to the sum of the minimum payments plus the extra 500. *)
Theorem plan_payments_total (strategy : Strategy) (debts : list Debt) :
  debts <> [] ->
  fold_left (fun sum item => (sum + monthlyPay item)%js)
            (payoffPlan strategy debts) (Fin 0)
  = (totalMinimumPayment debts + extraPayment)%js.
Proof.
  intros Hne. rewrite monthlyPay_sum, totalMinimumPayment_sum, add_Fin.
  rewrite <- (map_map plan_debt minimumPayment), payoffPlan_debts.
  rewrite (Rsum_perm _ _ (Permutation_map minimumPayment
                            (sortedDebts_perm strategy debts))).
  rewrite payoffPlan_extras.
  destruct (sortedDebts strategy debts) as [| d ds] eqn:Hsorted.
  - exfalso. apply Hne. apply Permutation_nil. rewrite <- Hsorted.
    apply sortedDebts_perm.
  - unfold Rsum at 2. cbn [fold_right]. rewrite sum_repeat_0. f_equal. lra.
Qed.

Lemma plan_payments_total_witness :
  fold_left (fun sum item => (sum + monthlyPay item)%js)
            (payoffPlan avalanche mockDebts) (Fin 0)
  = (totalMinimumPayment mockDebts + extraPayment)%js.
Proof. apply (plan_payments_total avalanche mockDebts). discriminate. Defined.

Lemma sorted_head_extreme (P : Debt -> Debt -> Prop) (debts sorted : list Debt)
      (first : Debt) (rest : list Debt) :
  (forall d, P d d) ->
  Permutation sorted debts ->
  StronglySorted P sorted ->
  sorted = first :: rest ->
  Forall (P first) debts.
Proof.
  intros Hrefl Hperm Hsorted Heq. subst sorted.
  apply (Permutation_Forall Hperm).
  inversion Hsorted as [| x l _ Hall]; subst.
  constructor; [apply Hrefl | exact Hall].
Qed.

(** X8.  The plan is empty only for an empty list of debts.  Otherwise
    its first entry, the one that receives the extra payment, is a debt
    with the highest interest rate under avalanche and a debt with the
    lowest balance under snowball. *)
Theorem extra_goes_to_top_debt (debts : list Debt) :
  match payoffPlan avalanche debts with
  | [] => debts = []
  | first :: _ =>
      plan_extraPayment first = extraPayment
      /\ Forall (fun d => interestRate d <= interestRate (plan_debt first))
                debts
  end
  /\ match payoffPlan snowball debts with
     | [] => debts = []
     | first :: _ =>
         plan_extraPayment first = extraPayment
         /\ Forall (fun d => balance (plan_debt first) <= balance d) debts
     end.
Proof.
  split.
  - pose proof (payoffPlan_debts avalanche debts) as Hdebts.
    pose proof (payoffPlan_extras avalanche debts) as Hextras.
    destruct (sortedDebts_avalanche_spec debts) as [Hperm [Hsorted _]].
    destruct (payoffPlan avalanche debts) as [| first rest].
    + cbn [map] in Hdebts. rewrite <- Hdebts in Hperm.
      now apply Permutation_nil.
    + cbn [map] in Hdebts, Hextras.
      rewrite <- Hdebts in Hextras. injection Hextras as Hfirst _.
      split; [exact Hfirst |].
      apply (sorted_head_extreme
               (fun a b => interestRate b <= interestRate a) debts
               (sortedDebts avalanche debts) (plan_debt first)
               (map plan_debt rest) (fun d => Rle_refl _) Hperm Hsorted).
      now symmetry.
  - pose proof (payoffPlan_debts snowball debts) as Hdebts.
    pose proof (payoffPlan_extras snowball debts) as Hextras.
    destruct (sortedDebts_snowball_spec debts) as [Hperm [Hsorted _]].
    destruct (payoffPlan snowball debts) as [| first rest].
    + cbn [map] in Hdebts. rewrite <- Hdebts in Hperm.
      now apply Permutation_nil.
    + cbn [map] in Hdebts, Hextras.
      rewrite <- Hdebts in Hextras. injection Hextras as Hfirst _.
      split; [exact Hfirst |].
      apply (sorted_head_extreme
               (fun a b => balance a <= balance b) debts
               (sortedDebts snowball debts) (plan_debt first)
               (map plan_debt rest) (fun d => Rle_refl _) Hperm Hsorted).
      now symmetry.
Qed.

(** ** FIREProgressCard: the projection and the years to the target *)

Lemma findIndex_from_spec (A : Type) (test : A -> bool) (l : list A) :
  forall index : Z,
    (findIndex_from test index l = (-1)%Z
     /\ forall x, In x l -> test x = false)
    \/ exists (k : nat) (x : A),
         findIndex_from test index l = (index + Z.of_nat k)%Z
         /\ nth_error l k = Some x
         /\ test x = true
         /\ forall (j : nat) (y : A),
              (j < k)%nat -> nth_error l j = Some y -> test y = false.
Proof.
  induction l as [| a l IH]; intros index; cbn [findIndex_from].
  - left. split; [reflexivity | intros x []].
  - destruct (test a) eqn:Ha.
    + right. exists 0%nat, a. repeat split; [lia | exact Ha |].
      intros j y Hj. lia.
    + destruct (IH (index + 1)%Z)
        as [[Hnone Hall] | (k & x & Hk & Hx & Htest & Hbefore)].
      * left. split; [exact Hnone |].
        intros x [Hx | Hx]; [now subst | now apply Hall].
      * right. exists (S k), x. repeat split; [lia | exact Hx | exact Htest |].
        intros [| j] y Hj Hy; cbn [nth_error] in Hy.
        -- injection Hy as Hy. now subst.
        -- apply (Hbefore j y); [lia | exact Hy].
Qed.

Lemma projectionData_In (metrics : FIREMetrics) (year : nat) :
  (year <= yearsToRetirement metrics + 5)%nat ->
  In (projectionPoint metrics year) (projectionData metrics).
Proof.
  intros Hyear. apply nth_error_In with (n := year).
  now apply projectionData_nth.
Qed.

Lemma projectionData_nth_inv (metrics : FIREMetrics) (k : nat)
      (point : ProjectionPoint) :
  nth_error (projectionData metrics) k = Some point ->
  (k <= yearsToRetirement metrics + 5)%nat
  /\ point = projectionPoint metrics k.
Proof.
  intros Hk.
  assert (Hlt : (k < length (projectionData metrics))%nat)
    by (apply nth_error_Some; congruence).
  rewrite projectionData_length in Hlt.
  assert (Hle : (k <= yearsToRetirement metrics + 5)%nat) by lia.
  split; [exact Hle |].
  rewrite projectionData_nth in Hk by exact Hle. congruence.
Qed.

(** X9.  [yearsToFIRE] is -1 when no year of the projection reaches the
    target; otherwise it is the first year offset, at most
    yearsToRetirement + 5, whose projected value reaches the target. *)
Theorem yearsToFIRE_first_year (metrics : FIREMetrics) :
  (yearsToFIRE metrics = (-1)%Z
   /\ forall year : nat,
        (year <= yearsToRetirement metrics + 5)%nat ->
        (calculateFutureValue metrics year
         >=? targetRetirementAmount metrics)%js = false)
  \/ exists k : nat,
       yearsToFIRE metrics = Z.of_nat k
       /\ (k <= yearsToRetirement metrics + 5)%nat
       /\ (calculateFutureValue metrics k
           >=? targetRetirementAmount metrics)%js = true
       /\ forall j : nat,
            (j < k)%nat ->
            (calculateFutureValue metrics j
             >=? targetRetirementAmount metrics)%js = false.
Proof.
  unfold yearsToFIRE, findIndex.
  destruct (findIndex_from_spec _
              (fun d => (Current_Path d >=? targetRetirementAmount metrics)%js)
              (projectionData metrics) 0%Z)
    as [[Hnone Hall] | (k & x & Hk & Hx & Htest & Hbefore)].
  - left. split; [exact Hnone |].
    intros year Hyear.
    apply (Hall (projectionPoint metrics year)).
    now apply projectionData_In.
  - right. exists k.
    apply projectionData_nth_inv in Hx. destruct Hx as [Hle Hx]. subst x.
    repeat split; [rewrite Hk; lia | exact Hle | exact Htest |].
    intros j Hj.
    apply (Hbefore j (projectionPoint metrics j) Hj).
    apply projectionData_nth. lia.
Qed.

Lemma findIndex_from_mono (A : Type) (test1 test2 : A -> bool) (l : list A) :
  (forall x, In x l -> test1 x = true -> test2 x = true) ->
  forall index : Z,
    (0 <= index)%Z ->
    findIndex_from test1 index l = (-1)%Z
    \/ (index <= findIndex_from test2 index l
        <= findIndex_from test1 index l)%Z.
Proof.
  induction l as [| a l IH]; intros Himp index Hindex; cbn [findIndex_from].
  - now left.
  - destruct (test1 a) eqn:H1.
    + right. rewrite (Himp a (or_introl eq_refl) H1). lia.
    + destruct (IH (fun x Hx => Himp x (or_intror Hx)) (index + 1)%Z ltac:(lia))
        as [Hnone | Hle].
      * now left.
      * right. destruct (test2 a); lia.
Qed.

Lemma With_Extra_reaches (metrics : FIREMetrics) (year : nat) :
  (calculateFutureValue metrics year
   >=? targetRetirementAmount metrics)%js = true ->
  (With_Extra (projectionPoint metrics year)
   >=? targetRetirementAmount metrics)%js = true.
Proof.
  cbn [projectionPoint With_Extra].
  rewrite Math_pow_Fin, !mul_Fin.
  assert (Hs : 0 <= 500 * 12 * INR year * 1.07 ^ year).
  { apply Rmult_le_pos; [| apply pow_le; lra].
    pose proof (pos_INR year). lra. }
  destruct (calculateFutureValue metrics year) as [| | x |];
    cbn [add ge le]; try discriminate; try reflexivity.
  destruct (Rle_dec (targetRetirementAmount metrics) x);
    [| discriminate].
  intros _.
  destruct (Rle_dec (targetRetirementAmount metrics)
                    (x + 500 * 12 * INR year * 1.07 ^ year));
    [reflexivity | lra].
Qed.

(** X10.  The path with the extra contribution reaches the target no later
    than the current path: either the current path never reaches it
    (yearsToFIRE = -1), or 0 <= yearsWithExtra <= yearsToFIRE, so that
    yearsSaved >= 0. *)
Theorem extra_path_reaches_target_no_later (metrics : FIREMetrics) :
  yearsToFIRE metrics = (-1)%Z
  \/ ((0 <= yearsWithExtra metrics <= yearsToFIRE metrics)%Z
      /\ (0 <= yearsSaved metrics)%Z).
Proof.
  unfold yearsSaved, yearsToFIRE, yearsWithExtra, findIndex.
  destruct (findIndex_from_mono _
              (fun d => (Current_Path d >=? targetRetirementAmount metrics)%js)
              (fun d => (With_Extra d >=? targetRetirementAmount metrics)%js)
              (projectionData metrics)) with (index := 0%Z)
    as [Hnone | Hle].
  - intros x Hx. apply In_nth_error in Hx. destruct Hx as [k Hk].
    apply projectionData_nth_inv in Hk. destruct Hk as [_ Hk]. subst x.
    apply With_Extra_reaches.
  - lia.
  - now left.
  - right. lia.
Qed.

Lemma findIndex_from_none (A : Type) (test : A -> bool) (l : list A) :
  (forall x, In x l -> test x = false) ->
  forall index : Z, findIndex_from test index l = (-1)%Z.
Proof.
  induction l as [| a l IH]; intros Hall index; cbn [findIndex_from].
  - reflexivity.
  - rewrite (Hall a (or_introl eq_refl)).
    apply IH. intros x Hx. apply Hall. now right.
Qed.

(** X11.  With an expected return of 0 every projected value is [NaN], so
    neither path ever reaches the target, whatever the target is:
    yearsToFIRE = -1, yearsWithExtra = -1 and yearsSaved = 0. *)
Theorem zero_return_never_reaches_target (metrics : FIREMetrics) :
  expectedReturn metrics = 0 ->
  (forall point, In point (projectionData metrics) ->
                 Current_Path point = NaN /\ With_Extra point = NaN)
  /\ yearsToFIRE metrics = (-1)%Z
  /\ yearsWithExtra metrics = (-1)%Z
  /\ yearsSaved metrics = 0%Z.
Proof.
  intros Hr.
  assert (Hpoints : forall point,
             In point (projectionData metrics) ->
             Current_Path point = NaN /\ With_Extra point = NaN).
  { intros point Hin. apply In_nth_error in Hin. destruct Hin as [k Hk].
    apply projectionData_nth_inv in Hk. destruct Hk as [_ Hk]. subst point.
    cbn [projectionPoint Current_Path With_Extra].
    now rewrite calculateFutureValue_zero_rate by exact Hr. }
  assert (Hbase : yearsToFIRE metrics = (-1)%Z).
  { apply findIndex_from_none. intros x Hx.
    destruct (Hpoints x Hx) as [Hcp _]. now rewrite Hcp. }
  assert (Hextra : yearsWithExtra metrics = (-1)%Z).
  { apply findIndex_from_none. intros x Hx.
    destruct (Hpoints x Hx) as [_ Hwe]. now rewrite Hwe. }
  repeat split; try assumption; try (now apply Hpoints).
  unfold yearsSaved. rewrite Hbase, Hextra. reflexivity.
Qed.

Lemma zero_return_never_reaches_target_witness :
  yearsToFIRE noReturnMetrics = (-1)%Z
  /\ yearsWithExtra noReturnMetrics = (-1)%Z
  /\ yearsSaved noReturnMetrics = 0%Z.
Proof.
  apply (zero_return_never_reaches_target noReturnMetrics). reflexivity.
Defined.

Lemma Math_round_monotone (x y : R) :
  x <= y -> (Math_round (Fin x) <=? Math_round (Fin y))%js = true.
Proof.
  intros H. cbn [Math_round]. apply le_Fin_true, IZR_le, Zfloor_le. lra.
Qed.

Lemma FV_monotone (pv pmt rate : R) (year : nat) :
  0 < rate -> 0 <= pv -> 0 <= pmt ->
  FV pv pmt rate year <= FV pv pmt rate (S year).
Proof.
  intros Hrate Hpv Hpmt. unfold FV.
  destruct (Req_dec_T (rate / 100 / 12) 0) as [H0 | _]; [lra |].
  set (r := rate / 100 / 12). assert (Hr : 0 < r) by (unfold r; lra).
  replace (S year * 12)%nat with (12 + year * 12)%nat by lia.
  rewrite pow_add.
  assert (Hq : 1 <= (1 + r) ^ 12) by (apply pow_R1_Rle; lra).
  assert (Hn : 0 < (1 + r) ^ (year * 12)) by (apply pow_lt; lra).
  set (q := (1 + r) ^ 12) in *. set (g := (1 + r) ^ (year * 12)) in *.
  assert (Hgrow : g <= q * g) by nra.
  assert (Hdiv : pmt * (g - 1) / r <= pmt * (q * g - 1) / r).
  { unfold Rdiv. apply Rmult_le_compat_r; [left; now apply Rinv_0_lt_compat |].
    nra. }
  nra.
Qed.

(** X12.  With a positive expected return and no negative savings or
    contribution, the projected value never decreases from one year to the
    next. *)
Theorem projection_never_decreases (metrics : FIREMetrics) (year : nat) :
  0 < expectedReturn metrics ->
  0 <= currentSavings metrics ->
  0 <= monthlyContribution metrics ->
  (calculateFutureValue metrics year
   <=? calculateFutureValue metrics (S year))%js = true.
Proof.
  intros Hr Hpv Hpmt.
  rewrite !calculateFutureValue_nonzero_rate by lra.
  apply Math_round_monotone. now apply FV_monotone.
Qed.

Lemma projection_never_decreases_witness :
  (calculateFutureValue mockFIREMetrics 1
   <=? calculateFutureValue mockFIREMetrics 2)%js = true.
Proof.
  apply (projection_never_decreases mockFIREMetrics 1); simpl; lra.
Defined.

(** X13.  When the retirement age is at least the current age plus the
    years to retirement, the chart receives every point of the
    projection: the filter on the year removes nothing. *)
Theorem chartData_keeps_all (metrics : FIREMetrics) :
  currentAge metrics + INR (yearsToRetirement metrics)
  <= retirementAge metrics ->
  chartData metrics = projectionData metrics.
Proof.
  intros Hage. unfold chartData.
  apply forallb_filter_id. apply forallb_forall.
  intros point Hin. apply In_nth_error in Hin. destruct Hin as [k Hk].
  apply projectionData_nth_inv in Hk. destruct Hk as [Hle Hk]. subst point.
  cbn [projectionPoint point_year]. rewrite !add_Fin.
  apply le_Fin_true.
  apply le_INR in Hle. rewrite plus_INR in Hle. simpl in Hle. lra.
Qed.

Lemma chartData_keeps_all_witness :
  chartData mockFIREMetrics = projectionData mockFIREMetrics.
Proof.
  apply (chartData_keeps_all mockFIREMetrics). simpl. lra.
Defined.

(** ** GoalsTracker *)

Lemma comparePriority_key (Date : Type) (a b : FinancialGoal Date) :
  ((priorityOrder (priority a) - priorityOrder (priority b))%js >? 0)%js = true
  <-> priorityOrder (priority b) < priorityOrder (priority a).
Proof.
  rewrite sub_Fin. unfold gt, lt.
  destruct (Rlt_dec 0 (priorityOrder (priority a)
                       - priorityOrder (priority b)));
    split; intros H; try reflexivity; try discriminate; lra.
Qed.

Lemma Priority_eqb_order (p q : Priority) :
  Priority_eqb q p = Req_bool (priorityOrder q) (priorityOrder p).
Proof.
  unfold Req_bool.
  destruct p, q; cbn [Priority_eqb priorityOrder];
    match goal with
    | |- context [Req_dec_T ?a ?b] => destruct (Req_dec_T a b)
    end; try reflexivity; lra.
Qed.

(** X14.  The goals are shown in the order high, medium, low: the sorted
    list is a permutation of the goals, no goal comes before one of
    higher priority, and goals of the same priority keep their input
    order. *)
Theorem sortedGoals_order (Date : Type) (goals : list (FinancialGoal Date)) :
  Permutation (sortedGoals goals) goals
  /\ StronglySorted
       (fun a b => priorityOrder (priority a) <= priorityOrder (priority b))
       (sortedGoals goals)
  /\ forall p : Priority,
       filter (fun g => Priority_eqb (priority g) p) (sortedGoals goals)
       = filter (fun g => Priority_eqb (priority g) p) goals.
Proof.
  unfold sortedGoals. split; [| split].
  - apply sort_perm.
  - apply sort_sorted with (key := fun g => priorityOrder (priority g)).
    intros a b. apply comparePriority_key.
  - intros p.
    rewrite !(filter_ext (fun g => Priority_eqb (priority g) p)
                (fun g => Req_bool (priorityOrder (priority g))
                                   (priorityOrder p)))
      by (intros g; apply Priority_eqb_order).
    apply sort_stable with (key := fun g => priorityOrder (priority g)).
    intros a b. apply comparePriority_key.
Qed.

(** X15.  For a goal that is not overfunded (currentAmount <=
    targetAmount) the monthly amount is a finite number between 0 and the
    remaining amount, and it is positive when something remains. *)
Theorem monthly_needed_bounds
        (Date : Type) (differenceInDays : Date -> Date -> Z)
        (w : World Date) (goal : FinancialGoal Date) :
  currentAmount goal <= targetAmount goal ->
  exists needed : R,
    calculateMonthlyNeeded differenceInDays w goal = Fin needed
    /\ 0 <= needed <= targetAmount goal - currentAmount goal
    /\ (currentAmount goal < targetAmount goal -> 0 < needed).
Proof.
  intros Hle. rewrite calculateMonthlyNeeded_value.
  eexists. split; [reflexivity |].
  set (m := Rmax 1 (IZR (differenceInDays (targetDate goal) (clock w)) / 30)).
  assert (Hm : 1 <= m) by apply Rmax_l.
  set (rem := targetAmount goal - currentAmount goal).
  assert (Hrem : 0 <= rem) by (unfold rem; lra).
  assert (Hinv : 0 < / m <= 1).
  { split; [apply Rinv_0_lt_compat; lra |].
    rewrite <- Rinv_1. apply Rinv_le_contravar; lra. }
  unfold Rdiv. repeat split.
  - apply Rmult_le_pos; lra.
  - nra.
  - intros Hlt. apply Rmult_lt_0_compat; [unfold rem; lra | lra].
Qed.

Lemma monthly_needed_bounds_witness :
  exists needed : R,
    calculateMonthlyNeeded differenceInDays_ms atEpoch emergencyGoal
    = Fin needed
    /\ 0 <= needed <= targetAmount emergencyGoal - currentAmount emergencyGoal
    /\ (currentAmount emergencyGoal < targetAmount emergencyGoal ->
        0 < needed).
Proof.
  apply (monthly_needed_bounds Z differenceInDays_ms atEpoch emergencyGoal).
  simpl. lra.
Defined.

(** X16.  For a goal that is not overfunded, a clock reading with more
    days left to the target date never gives a larger monthly amount. *)
Theorem monthly_needed_decreases_with_time
        (Date : Type) (differenceInDays : Date -> Date -> Z)
        (w1 w2 : World Date) (goal : FinancialGoal Date) :
  currentAmount goal <= targetAmount goal ->
  (differenceInDays (targetDate goal) (clock w1)
   <= differenceInDays (targetDate goal) (clock w2))%Z ->
  (calculateMonthlyNeeded differenceInDays w2 goal
   <=? calculateMonthlyNeeded differenceInDays w1 goal)%js = true.
Proof.
  intros Hle Hdays. rewrite !calculateMonthlyNeeded_value.
  apply le_Fin_true. apply IZR_le in Hdays.
  set (d1 := IZR (differenceInDays (targetDate goal) (clock w1))) in *.
  set (d2 := IZR (differenceInDays (targetDate goal) (clock w2))) in *.
  assert (H1 : 1 <= Rmax 1 (d1 / 30)) by apply Rmax_l.
  assert (H12 : Rmax 1 (d1 / 30) <= Rmax 1 (d2 / 30)).
  { apply Rmax_lub; [apply Rmax_l |].
    apply Rle_trans with (d2 / 30); [lra | apply Rmax_r]. }
  unfold Rdiv at 1 3. apply Rmult_le_compat_l; [lra |].
  apply Rinv_le_contravar; lra.
Qed.

Lemma monthly_needed_decreases_with_time_witness :
  (calculateMonthlyNeeded differenceInDays_ms atEpoch emergencyGoal
   <=? calculateMonthlyNeeded differenceInDays_ms sixtyDaysLater
         emergencyGoal)%js = true.
Proof.
  apply (monthly_needed_decreases_with_time Z differenceInDays_ms
           sixtyDaysLater atEpoch emergencyGoal).
  - simpl. lra.
  - rewrite days_emergencyGoal_atEpoch, days_emergencyGoal_sixtyDaysLater.
    lia.
Defined.

Lemma ge_Fin_true (x y : R) : y <= x -> (Fin x >=? Fin y)%js = true.
Proof. intros H. unfold ge. now apply le_Fin_true. Qed.

Lemma ge_Fin_false (x y : R) : x < y -> (Fin x >=? Fin y)%js = false.
Proof. intros H. unfold ge. now apply le_Fin_false. Qed.

Lemma ge_Fin_iff (x y : R) : (Fin x >=? Fin y)%js = true <-> y <= x.
Proof.
  split; [| apply ge_Fin_true].
  intros H. apply Rnot_lt_le. intros Hlt.
  rewrite ge_Fin_false in H by exact Hlt. discriminate.
Qed.

Lemma lt_Fin_iff (x y : R) : (Fin x <? Fin y)%js = true <-> x < y.
Proof.
  unfold lt. destruct (Rlt_dec x y); split; intros H;
    try reflexivity; try assumption; try discriminate; contradiction.
Qed.

Lemma progress_value (Date : Type) (goal : FinancialGoal Date) :
  targetAmount goal <> 0 ->
  progress goal = Fin (currentAmount goal / targetAmount goal * 100).
Proof. intros H. unfold progress. now rewrite div_Fin, mul_Fin. Qed.

(** X17.  For a goal with a positive target: the "Goal Achieved" banner
    shows exactly when currentAmount >= targetAmount, and then the monthly
    amount is at most 0 and the "Deadline approaching" banner is off; that
    banner shows exactly when currentAmount < targetAmount and fewer than
    30 days remain. *)
Theorem goal_banners
        (Date : Type) (differenceInDays : Date -> Date -> Z)
        (w : World Date) (goal : FinancialGoal Date) :
  0 < targetAmount goal ->
  (showsGoalAchieved goal = true <-> targetAmount goal <= currentAmount goal)
  /\ (showsGoalAchieved goal = true ->
      showsDeadlineApproaching differenceInDays w goal = false
      /\ (calculateMonthlyNeeded differenceInDays w goal <=? 0)%js = true)
  /\ (showsDeadlineApproaching differenceInDays w goal = true
      <-> currentAmount goal < targetAmount goal
          /\ (daysRemaining differenceInDays w goal < 30)%Z).
Proof.
  intros Htarget.
  assert (Hratio : forall c : R,
             c / targetAmount goal * 100 < 100 <-> c < targetAmount goal).
  { intros c. split; intros H.
    - apply (Rmult_lt_reg_r (/ targetAmount goal));
        [now apply Rinv_0_lt_compat |].
      rewrite Rinv_r by lra. unfold Rdiv in H. lra.
    - apply (Rmult_lt_compat_r (/ targetAmount goal)) in H;
        [| now apply Rinv_0_lt_compat].
      rewrite Rinv_r in H by lra. unfold Rdiv. lra. }
  assert (Hachieved : showsGoalAchieved goal = true
                      <-> targetAmount goal <= currentAmount goal).
  { unfold showsGoalAchieved. rewrite progress_value by lra.
    rewrite ge_Fin_iff. split; intros H.
    - apply Rnot_lt_le. intros Hlt. apply Hratio in Hlt. lra.
    - apply Rnot_lt_le. intros Hlt. apply Hratio in Hlt. lra. }
  assert (Happroaching :
            showsDeadlineApproaching differenceInDays w goal = true
            <-> currentAmount goal < targetAmount goal
                /\ (daysRemaining differenceInDays w goal < 30)%Z).
  { unfold showsDeadlineApproaching. rewrite progress_value by lra.
    rewrite andb_true_iff, !lt_Fin_iff, Hratio.
    split; intros [H1 H2]; (split; [exact H1 |]).
    - apply lt_IZR. exact H2.
    - apply IZR_lt in H2. exact H2. }
  split; [exact Hachieved |]. split; [| exact Happroaching].
  intros H. apply Hachieved in H. split.
  - apply not_true_is_false. intros Hs. apply Happroaching in Hs. lra.
  - rewrite calculateMonthlyNeeded_value. apply le_Fin_true.
    set (m := Rmax 1 (IZR (differenceInDays (targetDate goal) (clock w)) / 30)).
    assert (Hm : 1 <= m) by apply Rmax_l.
    assert (Hinv : 0 < / m) by (apply Rinv_0_lt_compat; lra).
    unfold Rdiv. nra.
Qed.

Lemma goal_banners_witness :
  (showsGoalAchieved overfundedGoal = true
   <-> targetAmount overfundedGoal <= currentAmount overfundedGoal)
  /\ (showsGoalAchieved overfundedGoal = true ->
      showsDeadlineApproaching differenceInDays_ms atEpoch overfundedGoal
      = false
      /\ (calculateMonthlyNeeded differenceInDays_ms atEpoch overfundedGoal
          <=? 0)%js = true)
  /\ (showsDeadlineApproaching differenceInDays_ms atEpoch overfundedGoal
      = true
      <-> currentAmount overfundedGoal < targetAmount overfundedGoal
          /\ (daysRemaining differenceInDays_ms atEpoch overfundedGoal
              < 30)%Z).
Proof.
  apply (goal_banners Z differenceInDays_ms atEpoch overfundedGoal).
  simpl. lra.
Defined.

Lemma not_finite_div_zero (x : R) : ~ is_finite (Fin x / Fin 0 * 100)%js.
Proof.
  unfold div, Rsign. destruct (Req_dec_T 0 0) as [_ | H]; [| lra].
  destruct (Rlt_dec x 0).
  - cbn. unfold Rsign. destruct (Rlt_dec 100 0); [lra |].
    destruct (Rlt_dec 0 100); [intros [] | lra].
  - destruct (Rlt_dec 0 x); [| intros []].
    cbn. unfold Rsign. destruct (Rlt_dec 100 0); [lra |].
    destruct (Rlt_dec 0 100); [intros [] | lra].
Qed.

(** X18.  The overall progress of the goals is a finite number exactly
    when the target amounts do not add up to 0; with no goals it is
    [NaN]. *)
Theorem overallProgress_finite_iff
        (Date : Type) (goals : list (FinancialGoal Date)) :
  (is_finite (overallProgress goals)
   <-> Rsum (map targetAmount goals) <> 0)
  /\ overallProgress (@nil (FinancialGoal Date)) = NaN.
Proof.
  split.
  - unfold overallProgress, totalSaved, totalGoalValue.
    rewrite !fold_left_add_Fin.
    replace (0 + Rsum (map targetAmount goals))
      with (Rsum (map targetAmount goals)) by lra.
    destruct (Req_dec_T (Rsum (map targetAmount goals)) 0) as [H0 | Hne].
    + rewrite H0. split; [| intros H; now contradiction H].
      intros H. now apply not_finite_div_zero in H.
    + rewrite div_Fin, mul_Fin by exact Hne.
      split; [intros _; exact Hne | intros _; exact I].
  - unfold overallProgress, totalSaved, totalGoalValue. cbn [fold_left].
    now rewrite div_zero_zero.
Qed.

(** ** FinancialHealthScore: colour, label, checkpoints and edge cases *)

(** X19.  For every score, [NaN] included, the colour and the label agree
    on the two upper bands and the colour rose covers the two lower
    labels: emerald goes with "Excellent", amber with "Good", rose with
    "Fair" or "Needs Improvement"; a [NaN] score is rose and "Needs
    Improvement". *)
Theorem score_colour_matches_label (score : number) :
  (getScoreColor score = "emerald"%string
   <-> getScoreLabel score = "Excellent"%string)
  /\ (getScoreColor score = "amber"%string
      <-> getScoreLabel score = "Good"%string)
  /\ (getScoreColor score = "rose"%string
      <-> getScoreLabel score = "Fair"%string
          \/ getScoreLabel score = "Needs Improvement"%string)
  /\ getScoreColor NaN = "rose"%string
  /\ getScoreLabel NaN = "Needs Improvement"%string.
Proof.
  unfold getScoreColor, getScoreLabel.
  destruct (score >=? 80)%js, (score >=? 60)%js, (score >=? 40)%js;
    repeat split; intros H;
    try reflexivity; try discriminate;
    try (left; reflexivity); try (right; reflexivity);
    destruct H; discriminate.
Qed.

Lemma three_way_complete (b1 b2 : bool) :
  (if b1 then "complete"%string
   else if b2 then "partial"%string else "incomplete"%string)
  = "complete"%string <-> b1 = true.
Proof. destruct b1, b2; split; intros H; try reflexivity; discriminate. Qed.

Lemma three_way_incomplete (b1 b2 : bool) :
  (if b1 then "complete"%string
   else if b2 then "partial"%string else "incomplete"%string)
  = "incomplete"%string <-> b1 = false /\ b2 = false.
Proof.
  destruct b1, b2; split; intros H; try (split; reflexivity);
    try reflexivity; try discriminate; destruct H; discriminate.
Qed.

Lemma two_way_complete (b : bool) :
  (if b then "complete"%string else "incomplete"%string) = "complete"%string
  <-> b = true.
Proof. destruct b; split; intros H; try reflexivity; discriminate. Qed.

Lemma emergencyFund_score (profile : UserFinancialProfile) :
  emergencyFundTarget profile <> 0 ->
  Scores.emergencyFund (scores profile)
  = Fin (Rmin 100 (emergencyFundCurrent profile
                   / emergencyFundTarget profile * 100)).
Proof.
  intros H. cbn [scores Scores.emergencyFund].
  now rewrite div_Fin, mul_Fin, Math_min_Fin.
Qed.

Lemma creditScore_or_0_ge (profile : UserFinancialProfile) (bound : R) :
  0 < bound ->
  (creditScore_or_0 profile >=? bound)%js = true
  <-> exists score, creditScore profile = Some score /\ bound <= score.
Proof.
  intros Hbound. unfold creditScore_or_0, truthy.
  destruct (creditScore profile) as [score |].
  - destruct (Req_dec_T score 0) as [H0 | Hne]; rewrite ge_Fin_iff.
    + split; [lra |]. intros (c & Hc & Hle). injection Hc as Hc. lra.
    + split.
      * intros H. now exists score.
      * intros (c & Hc & Hle). injection Hc as Hc. lra.
  - rewrite ge_Fin_iff. split; [lra |].
    intros (c & Hc & _). discriminate.
Qed.

(** X20.  What three of the checkpoints mean, for a profile with a
    positive emergency-fund target.  "Emergency Fund" is complete exactly
    when the fund has reached its target and incomplete exactly when it is
    below half of it; "Retirement Savings" is complete exactly when some
    investment asset has a positive value; "Credit Health" is complete
    exactly when a credit score of at least 700 is present.  (The other
    two checkpoints compare sums and quotients of amounts; what they mean
    at a tie is decided by rounding, see the section on ties.) *)
Theorem healthChecks_meaning (profile : UserFinancialProfile) :
  0 < emergencyFundTarget profile ->
  exists s1 s2 s3 s4 s5 : string,
    map check_status (healthChecks profile) = [s1; s2; s3; s4; s5]
    /\ (s1 = "complete"%string
        <-> emergencyFundTarget profile <= emergencyFundCurrent profile)
    /\ (s1 = "incomplete"%string
        <-> 2 * emergencyFundCurrent profile < emergencyFundTarget profile)
    /\ (s4 = "complete"%string
        <-> exists a, In a (assets profile)
                      /\ asset_type a = investment_asset
                      /\ 0 < asset_value a)
    /\ (s5 = "complete"%string
        <-> exists score, creditScore profile = Some score /\ 700 <= score).
Proof.
  intros Htarget.
  assert (Hef : forall c bound : R,
             0 < bound ->
             (bound <= c / emergencyFundTarget profile * 100
              <-> bound / 100 * emergencyFundTarget profile <= c)).
  { intros c bound Hbound.
    assert (Hinv : 0 < / emergencyFundTarget profile)
      by now apply Rinv_0_lt_compat.
    split; intros H.
    - apply (Rmult_le_reg_r (/ emergencyFundTarget profile)); [exact Hinv |].
      rewrite Rmult_assoc, Rinv_r by lra. unfold Rdiv in H. lra.
    - apply (Rmult_le_compat_r (/ emergencyFundTarget profile)) in H;
        [| lra].
      rewrite Rmult_assoc, Rinv_r in H by lra. unfold Rdiv. lra. }
  unfold healthChecks. cbn [map check_status].
  do 5 eexists. split; [reflexivity |].
  rewrite !three_way_complete, three_way_incomplete, two_way_complete.
  rewrite emergencyFund_score by lra.
  split; [| split; [| split]].
  - rewrite ge_Fin_iff. split; intros H.
    + assert (H' : 100 <= emergencyFundCurrent profile
                           / emergencyFundTarget profile * 100)
        by (revert H; unfold Rmin; destruct (Rle_dec _ _); lra).
      apply Hef in H'; lra.
    + assert (H' : 100 <= emergencyFundCurrent profile
                           / emergencyFundTarget profile * 100)
        by (apply Hef; lra).
      unfold Rmin. destruct (Rle_dec _ _); lra.
  - split.
    + intros [_ H]. apply Rnot_le_lt. intros Hle.
      rewrite ge_Fin_true in H; [discriminate |].
      assert (H' : 50 <= emergencyFundCurrent profile
                          / emergencyFundTarget profile * 100)
        by (apply Hef; lra).
      unfold Rmin. destruct (Rle_dec _ _); lra.
    + intros Hlt.
      assert (H' : emergencyFundCurrent profile
                   / emergencyFundTarget profile * 100 < 50).
      { apply Rnot_le_lt. intros Hle. apply Hef in Hle; lra. }
      split; apply ge_Fin_false; unfold Rmin; destruct (Rle_dec _ _); lra.
  - rewrite existsb_exists. split.
    + intros (a & Hin & Ha). apply andb_true_iff in Ha. destruct Ha as [Ht Hv].
      exists a. split; [exact Hin |]. split.
      * destruct (asset_type a); try discriminate. reflexivity.
      * unfold gt in Hv. now apply lt_Fin_iff in Hv.
    + intros (a & Hin & Ht & Hv). exists a. split; [exact Hin |].
      apply andb_true_iff. split.
      * now rewrite Ht.
      * unfold gt. now apply lt_Fin_iff.
  - apply creditScore_or_0_ge. lra.
Qed.

Lemma mockUserProfile_income : activeIncome mockUserProfile = 7700.
Proof. unfold activeIncome, Rsum. simpl. lra. Qed.

Lemma healthChecks_meaning_witness :
  exists s1 s2 s3 s4 s5 : string,
    map check_status (healthChecks mockUserProfile) = [s1; s2; s3; s4; s5]
    /\ (s1 = "complete"%string
        <-> emergencyFundTarget mockUserProfile
            <= emergencyFundCurrent mockUserProfile)
    /\ (s1 = "incomplete"%string
        <-> 2 * emergencyFundCurrent mockUserProfile
            < emergencyFundTarget mockUserProfile)
    /\ (s4 = "complete"%string
        <-> exists a, In a (assets mockUserProfile)
                      /\ asset_type a = investment_asset
                      /\ 0 < asset_value a)
    /\ (s5 = "complete"%string
        <-> exists score,
              creditScore mockUserProfile = Some score /\ 700 <= score).
Proof.
  apply (healthChecks_meaning mockUserProfile).
  simpl. lra.
Defined.

Lemma Rsign_pos (x : R) : 0 < x -> Rsign x = Pos.
Proof.
  intros H. unfold Rsign.
  destruct (Rlt_dec x 0); [lra |]. destruct (Rlt_dec 0 x); [reflexivity | lra].
Qed.

Lemma Rsign_neg (x : R) : x < 0 -> Rsign x = Neg.
Proof. intros H. unfold Rsign. destruct (Rlt_dec x 0); [reflexivity | lra]. Qed.

Lemma Rsign_zero (x : R) : x = 0 -> Rsign x = Zero.
Proof.
  intros H. unfold Rsign.
  destruct (Rlt_dec x 0); [lra |]. destruct (Rlt_dec 0 x); [lra | reflexivity].
Qed.

Lemma div_Fin_zero (x z : R) :
  z = 0 ->
  (Fin x / Fin z)%js
  = match Rsign x with
    | Zero => NaN
    | Pos => Infinity
    | Neg => NegInfinity
    end.
Proof.
  intros Hz. unfold div.
  destruct (Req_dec_T z 0); [reflexivity | contradiction].
Qed.

Lemma mul_Infinity_pos (y : R) : 0 < y -> (Infinity * Fin y)%js = Infinity.
Proof. intros H. cbn [mul]. now rewrite Rsign_pos. Qed.

Lemma mul_NegInfinity_pos (y : R) :
  0 < y -> (NegInfinity * Fin y)%js = NegInfinity.
Proof. intros H. cbn [mul]. now rewrite Rsign_pos. Qed.

Lemma other_scores_finite (profile : UserFinancialProfile) :
  emergencyFundTarget profile <> 0 ->
  exists ef nw cs ba : R,
    Scores.emergencyFund (scores profile) = Fin ef
    /\ Scores.netWorth (scores profile) = Fin nw
    /\ Scores.creditScore (scores profile) = Fin cs
    /\ Scores.budgetAdherence (scores profile) = Fin ba.
Proof.
  intros Htarget.
  assert (Hmax : 1 <= Rmax 1 (debtSum profile)) by apply Rmax_l.
  do 4 eexists. split; [now apply emergencyFund_score |].
  cbn [scores Scores.netWorth Scores.creditScore Scores.budgetAdherence].
  rewrite totalAssets_Fin, totalDebt_Fin, Math_max_Fin.
  rewrite div_Fin by lra. rewrite mul_Fin, Math_min_Fin.
  split; [reflexivity |]. split; [| reflexivity].
  instantiate (1 := match creditScore profile with
                    | Some score => if Req_dec_T score 0 then 50
                                    else score / 850 * 100
                    | None => 50
                    end).
  destruct (creditScore profile) as [score |]; [| reflexivity].
  unfold truthy. destruct (Req_dec_T score 0); [reflexivity |].
  rewrite div_Fin by lra. now rewrite mul_Fin.
Qed.

(** X21.  With no active income (and an emergency-fund target other than
    0) the overall score is never a finite number: it is [-Infinity] when
    there are both debts and expenses, and [NaN] when the debts or the
    expenses add up to 0. *)
Theorem no_income_score_not_finite (profile : UserFinancialProfile) :
  activeIncome profile = 0 ->
  0 <= debtSum profile ->
  0 <= expenseSum profile ->
  emergencyFundTarget profile <> 0 ->
  (0 < debtSum profile -> 0 < expenseSum profile ->
   overallScore profile = NegInfinity)
  /\ (debtSum profile = 0 \/ expenseSum profile = 0 ->
      overallScore profile = NaN).
Proof.
  intros Hinc Hdebt Hexp Htarget.
  destruct (other_scores_finite profile Htarget)
    as (ef & nw & cs & ba & Hef & Hnw & Hcs & Hba).
  assert (Hdti : Scores.debtToIncome (scores profile)
                 = match Rsign (debtSum profile) with
                   | Zero => NaN
                   | _ => Fin 0
                   end).
  { cbn [scores Scores.debtToIncome].
    rewrite totalIncome_Fin, totalDebt_Fin, mul_Fin, Hinc.
    rewrite div_Fin_zero by lra.
    destruct Hdebt as [Hd | Hd].
    - rewrite (Rsign_pos _ Hd), mul_Infinity_pos by lra. reflexivity.
    - rewrite (Rsign_zero (debtSum profile)) by lra. reflexivity. }
  assert (Hsr : Scores.savingsRate (scores profile)
                = match Rsign (expenseSum profile) with
                  | Zero => NaN
                  | _ => NegInfinity
                  end).
  { cbn [scores Scores.savingsRate].
    rewrite totalIncome_Fin, totalExpenses_Fin, sub_Fin, Hinc.
    rewrite div_Fin_zero by lra.
    destruct Hexp as [He | He].
    - rewrite (Rsign_pos _ He), (Rsign_neg (0 - expenseSum profile)) by lra.
      rewrite !mul_NegInfinity_pos by lra. reflexivity.
    - rewrite (Rsign_zero (expenseSum profile)),
        (Rsign_zero (0 - expenseSum profile)) by lra.
      reflexivity. }
  unfold overallScore. rewrite Hef, Hnw, Hcs, Hba, Hdti, Hsr.
  split.
  - intros Hd He. rewrite (Rsign_pos _ Hd), (Rsign_pos _ He).
    rewrite !mul_Fin, !add_Fin, mul_NegInfinity_pos by lra. reflexivity.
  - intros [Hd | He].
    + rewrite (Rsign_zero _ Hd). rewrite !mul_Fin. reflexivity.
    + rewrite (Rsign_zero _ He).
      destruct (Rsign (debtSum profile)); rewrite ?mul_Fin, ?add_Fin;
        reflexivity.
Qed.

Lemma no_income_score_not_finite_witness :
  overallScore noIncomeProfile = NegInfinity.
Proof.
  apply (no_income_score_not_finite noIncomeProfile);
    unfold activeIncome, debtSum, expenseSum, Rsum; simpl; lra.
Defined.

Lemma scores_in_range_witness :
  in_0_100 (Scores.emergencyFund (scores mockUserProfile))
  /\ in_0_100 (Scores.debtToIncome (scores mockUserProfile))
  /\ in_0_100 (Scores.savingsRate (scores mockUserProfile))
  /\ in_0_100 (Scores.netWorth (scores mockUserProfile))
  /\ in_0_100 (Scores.creditScore (scores mockUserProfile))
  /\ in_0_100 (Scores.budgetAdherence (scores mockUserProfile))
  /\ in_0_100 (overallScore mockUserProfile).
Proof.
  apply (scores_in_range mockUserProfile).
  - rewrite mockUserProfile_income. lra.
  - simpl. lra.
  - simpl. lra.
  - unfold debtSum, Rsum. simpl. lra.
  - unfold assetSum, Rsum. simpl. lra.
  - rewrite mockUserProfile_income. unfold expenseSum, Rsum. simpl. lra.
  - intros score H. injection H as H. lra.
  - simpl. unfold Rabs. destruct (Rcase_abs (55 - 50)); lra.
Defined.

(** ** BudgetAllocationChart *)

Lemma le_Fin_iff (x y : R) : (Fin x <=? Fin y)%js = true <-> x <= y.
Proof.
  split; [| apply le_Fin_true].
  intros H. apply Rnot_lt_le. intros Hlt.
  rewrite le_Fin_false in H by exact Hlt. discriminate.
Qed.

Lemma within_5 (a t : R) :
  (Math_abs (a - t) <=? 5)%js = true <-> t - 5 <= a <= t + 5.
Proof.
  rewrite sub_Fin. cbn [Math_abs]. rewrite le_Fin_iff.
  unfold Rabs. destruct (Rcase_abs (a - t)); split; lra.
Qed.

Lemma barColor_not_rose (row : BudgetRow) :
  budget_value row <= budget_target row + 5 ->
  barColor row <> "rose"%string.
Proof.
  intros H. unfold barColor.
  destruct (budget_value row <=? budget_target row)%js; [discriminate |].
  rewrite add_Fin, le_Fin_true by exact H. discriminate.
Qed.

(** X23.  When the badge says "On Track" (all three shares within 5
    points of their targets), no bar of the breakdown is rose, and the
    budget-adherence score of the health card is at least 90. *)
Theorem on_track_consequences (profile : UserFinancialProfile)
        (monthlyIncome : R) :
  isOnTrack (budgetAllocation profile) = true ->
  Forall (fun row => barColor row <> "rose"%string)
         (budgetData (budgetAllocation profile) monthlyIncome)
  /\ (Scores.budgetAdherence (scores profile) >=? 90)%js = true.
Proof.
  unfold isOnTrack. rewrite !andb_true_iff, !within_5.
  intros [[Hneeds Hwants] Hsavings]. split.
  - unfold budgetData.
    repeat (constructor; [apply barColor_not_rose; cbn; lra |]).
    constructor.
  - cbn [scores Scores.budgetAdherence].
    rewrite sub_Fin. cbn [Math_abs]. rewrite mul_Fin, sub_Fin.
    apply ge_Fin_true.
    unfold Rabs. destruct (Rcase_abs _); lra.
Qed.

Lemma on_track_consequences_witness :
  Forall (fun row => barColor row <> "rose"%string)
         (budgetData (budgetAllocation mockUserProfile) 7700)
  /\ (Scores.budgetAdherence (scores mockUserProfile) >=? 90)%js = true.
Proof.
  apply (on_track_consequences mockUserProfile 7700).
  unfold isOnTrack. rewrite !andb_true_iff, !within_5. simpl. lra.
Defined.

(** X24.  When the three actual shares add up to 100, the three amounts of
    the breakdown are finite and add up to the monthly income. *)
Theorem budget_amounts_add_up (allocation : BudgetAllocation)
        (monthlyIncome : R) :
  alloc_needs (actual allocation) + alloc_wants (actual allocation)
  + alloc_savings (actual allocation) = 100 ->
  exists a1 a2 a3 : R,
    map budget_amount (budgetData allocation monthlyIncome)
    = [Fin a1; Fin a2; Fin a3]
    /\ a1 + a2 + a3 = monthlyIncome.
Proof.
  intros Hsum. unfold budgetData. cbn [map budget_amount].
  rewrite !mul_Fin, !div_Fin by lra.
  do 3 eexists. split; [reflexivity |].
  set (n := alloc_needs (actual allocation)) in *.
  set (w := alloc_wants (actual allocation)) in *.
  set (sv := alloc_savings (actual allocation)) in *.
  replace (monthlyIncome * n / 100 + monthlyIncome * w / 100
           + monthlyIncome * sv / 100)
    with (monthlyIncome * (n + w + sv) / 100) by (field; lra).
  rewrite Hsum. field.
Qed.

Lemma budget_amounts_add_up_witness :
  exists a1 a2 a3 : R,
    map budget_amount (budgetData (budgetAllocation mockUserProfile) 7700)
    = [Fin a1; Fin a2; Fin a3]
    /\ a1 + a2 + a3 = 7700.
Proof.
  apply (budget_amounts_add_up (budgetAllocation mockUserProfile) 7700).
  simpl. lra.
Defined.

(** ** EmergencyFundTracker *)

Lemma ge_weaken (m : number) (a b : R) :
  b <= a -> (m >=? Fin a)%js = true -> (m >=? Fin b)%js = true.
Proof.
  intros Hba. destruct m as [| | x |]; cbn [ge le]; try discriminate;
    try reflexivity.
  destruct (Rle_dec a x); [| discriminate].
  intros _. destruct (Rle_dec b x); [reflexivity | lra].
Qed.

(** X25.  The milestones are reached from the bottom up (9 months implies
    6, 6 implies 3, 3 implies 1), and the status colour follows them:
    emerald exactly when the 6-month milestone is reached, amber exactly
    when the 3-month one is reached and the 6-month one is not, rose
    exactly when the 3-month one is not reached. *)
Theorem milestones_and_colour (current monthlyExpenses : R) :
  exists r1 r3 r6 r9 : bool,
    map reached (milestones current monthlyExpenses) = [r1; r3; r6; r9]
    /\ (r9 = true -> r6 = true)
    /\ (r6 = true -> r3 = true)
    /\ (r3 = true -> r1 = true)
    /\ (getStatusColor current monthlyExpenses = "emerald"%string
        <-> r6 = true)
    /\ (getStatusColor current monthlyExpenses = "amber"%string
        <-> r3 = true /\ r6 = false)
    /\ (getStatusColor current monthlyExpenses = "rose"%string
        <-> r3 = false).
Proof.
  unfold milestones, getStatusColor, recommendedMonths.
  cbn [map reached].
  do 4 eexists. split; [reflexivity |].
  set (m := monthsCovered current monthlyExpenses).
  pose proof (ge_weaken m 9 6 ltac:(lra)) as H96.
  pose proof (ge_weaken m 6 3 ltac:(lra)) as H63.
  pose proof (ge_weaken m 3 1 ltac:(lra)) as H31.
  split; [exact H96 |]. split; [exact H63 |]. split; [exact H31 |].
  destruct (m >=? 6)%js eqn:H6.
  - rewrite (H63 eq_refl). intuition discriminate.
  - destruct (m >=? 3)%js; intuition discriminate.
Qed.

Lemma monthsCovered_value (current monthlyExpenses : R) :
  monthlyExpenses <> 0 ->
  monthsCovered current monthlyExpenses = Fin (current / monthlyExpenses).
Proof. intros H. unfold monthsCovered. now rewrite div_Fin. Qed.

(** X26.  With positive monthly expenses, the recommendation box shows
    exactly when the status colour is not emerald; and whenever it shows,
    the amount it names, 6 months of expenses minus the current fund, is a
    finite number that is not negative.  (On binary64 numbers the amount
    can be 0 while the box shows, see the section on ties.) *)
Theorem recommendation_when_short (current monthlyExpenses : R) :
  0 < monthlyExpenses ->
  (showsRecommendation current monthlyExpenses = true
   <-> getStatusColor current monthlyExpenses <> "emerald"%string)
  /\ (showsRecommendation current monthlyExpenses = true ->
      exists shortfall : R,
        recommendedShortfall current monthlyExpenses = Fin shortfall
        /\ 0 <= shortfall).
Proof.
  intros He.
  assert (Hlt : current / monthlyExpenses < 6 ->
                0 < 6 * monthlyExpenses - current).
  { intros H.
    apply (Rmult_lt_compat_r monthlyExpenses) in H; [| exact He].
    unfold Rdiv in H. rewrite Rmult_assoc, Rinv_l in H by lra. lra. }
  unfold showsRecommendation, getStatusColor, recommendedShortfall,
    recommendedMonths.
  rewrite monthsCovered_value by lra. rewrite lt_Fin_iff, mul_Fin, sub_Fin.
  split.
  - destruct (Rlt_dec (current / monthlyExpenses) 6) as [H6 | H6].
    + rewrite ge_Fin_false by exact H6. split; [intros _ | intros _; exact H6].
      destruct (Fin (current / monthlyExpenses) >=? 3)%js; discriminate.
    + rewrite ge_Fin_true by lra. split; [contradiction |].
      intros H. now contradiction H.
  - intros H. apply Hlt in H. eexists. split; [reflexivity | lra].
Qed.

Lemma recommendation_when_short_witness :
  (showsRecommendation 8000 3920 = true
   <-> getStatusColor 8000 3920 <> "emerald"%string)
  /\ (showsRecommendation 8000 3920 = true ->
      exists shortfall : R,
        recommendedShortfall 8000 3920 = Fin shortfall /\ 0 <= shortfall).
Proof. apply (recommendation_when_short 8000 3920). lra. Defined.

(** X27.  With monthly expenses of 0 the months covered are not a finite
    number and the recommendation box never shows.  With an empty fund the
    status is rose and no milestone is reached; with a positive fund the
    status is emerald and every milestone is reached. *)
Theorem no_expenses_status (current : R) :
  0 <= current ->
  ~ is_finite (monthsCovered current 0)
  /\ showsRecommendation current 0 = false
  /\ (current = 0 ->
      getStatusColor current 0 = "rose"%string
      /\ map reached (milestones current 0) = [false; false; false; false])
  /\ (0 < current ->
      getStatusColor current 0 = "emerald"%string
      /\ map reached (milestones current 0) = [true; true; true; true]).
Proof.
  intros Hc.
  unfold showsRecommendation, getStatusColor, milestones, monthsCovered.
  rewrite div_Fin_zero by reflexivity.
  destruct Hc as [Hpos | Hzero].
  - rewrite (Rsign_pos _ Hpos).
    repeat split; try reflexivity; try (intros []); lra.
  - rewrite (Rsign_zero current) by lra.
    repeat split; try reflexivity; try (intros []); lra.
Qed.

Lemma no_expenses_status_witness :
  ~ is_finite (monthsCovered 8000 0)
  /\ showsRecommendation 8000 0 = false
  /\ (8000 = 0 ->
      getStatusColor 8000 0 = "rose"%string
      /\ map reached (milestones 8000 0) = [false; false; false; false])
  /\ (0 < 8000 ->
      getStatusColor 8000 0 = "emerald"%string
      /\ map reached (milestones 8000 0) = [true; true; true; true]).
Proof. apply (no_expenses_status 8000). lra. Defined.

(** ** CashFlowChart and the dashboard page *)

Lemma latestMonth_none (data : list CashFlow) :
  latestMonth data = None <-> data = [].
Proof.
  unfold latestMonth. split.
  - intros H. apply nth_error_None in H.
    destruct data as [| m data]; [reflexivity | simpl in H; lia].
  - intros H. now subst.
Qed.

Lemma netFlow_sum_bounds (lo hi : R) (data : list CashFlow) :
  Forall (fun month => lo <= netFlow month <= hi) data ->
  lo * INR (length data) <= Rsum (map netFlow data) <= hi * INR (length data).
Proof.
  induction 1 as [| m data [Hlo Hhi] _ IH].
  - simpl. lra.
  - cbn [map length]. rewrite S_INR. unfold Rsum in *. cbn [fold_right]. lra.
Qed.

(** X28.  The card fails (reading a field of an undefined month) exactly
    when there is no month of data.  Otherwise the average net flow is a
    finite number that lies between any lower and upper bound of the
    monthly net flows, and the trend is "positive" exactly when the net
    flow of the last month is above 0. *)
Theorem cashFlowSummary_average (lo hi : R) (data : list CashFlow) :
  (cashFlowSummary data = None <-> data = [])
  /\ (Forall (fun month => lo <= netFlow month <= hi) data ->
      data <> [] ->
      exists (trend : string) (avg : R) (latest : CashFlow),
        cashFlowSummary data = Some (trend, Fin avg)
        /\ lo <= avg <= hi
        /\ last data latest = latest
        /\ In latest data
        /\ (trend = "positive"%string <-> 0 < netFlow latest)).
Proof.
  split.
  - unfold cashFlowSummary.
    destruct (latestMonth data) as [latest |] eqn:Hlatest.
    + split; [discriminate |]. intros H. apply latestMonth_none in H.
      congruence.
    + split; [intros _; now apply latestMonth_none | reflexivity].
  - intros Hall Hne. unfold cashFlowSummary.
    destruct (latestMonth data) as [latest |] eqn:Hlatest;
      [| apply latestMonth_none in Hlatest; contradiction].
    assert (Hlen : 0 < INR (length data)).
    { destruct data as [| m data]; [contradiction |].
      cbn [length]. rewrite S_INR. pose proof (pos_INR (length data)). lra. }
    rewrite fold_left_add_Fin, div_Fin by lra.
    exists (if (netFlow latest >? 0)%js then "positive"%string
            else "negative"%string),
           ((0 + Rsum (map netFlow data)) / INR (length data)), latest.
    split; [reflexivity |].
    pose proof (netFlow_sum_bounds lo hi data Hall) as [Hlow Hup].
    split; [| split; [| split]].
    + split.
      * apply (Rmult_le_reg_r (INR (length data))); [exact Hlen |].
        unfold Rdiv. rewrite Rmult_assoc, Rinv_l by lra. lra.
      * apply (Rmult_le_reg_r (INR (length data))); [exact Hlen |].
        unfold Rdiv. rewrite Rmult_assoc, Rinv_l by lra. lra.
    + unfold latestMonth in Hlatest.
      destruct (exists_last Hne) as (front & z & Hdata). subst data.
      rewrite length_app in Hlatest. cbn [length] in Hlatest.
      replace (length front + 1 - 1)%nat with (length front) in Hlatest
        by lia.
      rewrite nth_error_app2, Nat.sub_diag in Hlatest by lia.
      cbn [nth_error] in Hlatest. injection Hlatest as Hz. subst z.
      apply last_last.
    + unfold latestMonth in Hlatest. now apply nth_error_In in Hlatest.
    + unfold gt. destruct (Fin 0 <? Fin (netFlow latest))%js eqn:Hpos.
      * apply lt_Fin_iff in Hpos. split; [intros _; exact Hpos | reflexivity].
      * split; [discriminate |]. intros H. apply lt_Fin_iff in H. congruence.
Qed.

Lemma cashFlowSummary_average_witness :
  exists (trend : string) (avg : R) (latest : CashFlow),
    cashFlowSummary [mkCashFlow "Jan" 7700 5920 1780 1780;
                     mkCashFlow "Feb" 7700 5920 1780 3560]
    = Some (trend, Fin avg)
    /\ 1780 <= avg <= 1780
    /\ last [mkCashFlow "Jan" 7700 5920 1780 1780;
             mkCashFlow "Feb" 7700 5920 1780 3560] latest = latest
    /\ In latest [mkCashFlow "Jan" 7700 5920 1780 1780;
                  mkCashFlow "Feb" 7700 5920 1780 3560]
    /\ (trend = "positive"%string <-> 0 < netFlow latest).
Proof.
  apply (cashFlowSummary_average 1780 1780).
  - repeat (constructor; [simpl; lra |]). constructor.
  - discriminate.
Defined.

(** X29.  The net cash flow card of the page and the "Positive Cash Flow"
    checkpoint of the health card agree: the card is emerald exactly when
    the checkpoint is complete. *)
Theorem net_flow_card_matches_checkpoint (profile : UserFinancialProfile) :
  netFlowColor profile = "emerald"%string
  <-> exists check,
        nth_error (healthChecks profile) 1 = Some check
        /\ check_label check = "Positive Cash Flow"%string
        /\ check_status check = "complete"%string.
Proof.
  assert (Hcard : netFlowColor profile = "emerald"%string
                  <-> expenseSum profile < activeIncome profile).
  { unfold netFlowColor, monthlyNetFlow, gt.
    rewrite totalIncome_Fin, totalExpenses_Fin, sub_Fin.
    destruct (Fin 0 <? Fin (activeIncome profile - expenseSum profile))%js
      eqn:Hpos.
    - apply lt_Fin_iff in Hpos. split; [intros _; lra | reflexivity].
    - split; [discriminate |]. intros H.
      assert (Hlt : (Fin 0 <? Fin (activeIncome profile
                                   - expenseSum profile))%js = true)
        by (apply lt_Fin_iff; lra).
      congruence. }
  rewrite Hcard. unfold healthChecks. cbn [nth_error].
  split.
  - intros Hlt. eexists. split; [reflexivity |].
    cbn [check_label check_status]. split; [reflexivity |].
    apply two_way_complete. unfold gt.
    rewrite totalIncome_Fin, totalExpenses_Fin. now apply lt_Fin_iff.
  - intros (check & Hcheck & _ & Hstatus). injection Hcheck as Hcheck.
    subst check. cbn [check_status] in Hstatus.
    apply two_way_complete in Hstatus. unfold gt in Hstatus.
    rewrite totalIncome_Fin, totalExpenses_Fin in Hstatus.
    now apply lt_Fin_iff in Hstatus.
Qed.

(** * Ties: exact arithmetic against binary64 *)

(** ** Fractions of integers and the ceiling of a quotient of logarithms *)

Lemma value_finite (x : float) (s : bool) (m : positive) (e : Z) :
  Prim2SF x = S754_finite s m e ->
  Binary64.value x
  = Fin (IZR (Binary64.numerator s m e) / IZR (Binary64.denominator e)).
Proof. intros H. unfold Binary64.value. now rewrite H. Qed.

Lemma fraction_lt (a b c d : Z) :
  (0 < b)%Z -> (0 < d)%Z -> (a * d < c * b)%Z -> IZR a / IZR b < IZR c / IZR d.
Proof.
  intros Hb Hd H. apply IZR_lt in Hb, Hd, H. rewrite !mult_IZR in H.
  apply (Rmult_lt_reg_r (IZR b * IZR d)); [nra |].
  replace (IZR a / IZR b * (IZR b * IZR d)) with (IZR a * IZR d)
    by (field; lra).
  replace (IZR c / IZR d * (IZR b * IZR d)) with (IZR c * IZR b)
    by (field; lra).
  exact H.
Qed.

Lemma fraction_le (a b c d : Z) :
  (0 < b)%Z -> (0 < d)%Z -> (a * d <= c * b)%Z ->
  IZR a / IZR b <= IZR c / IZR d.
Proof.
  intros Hb Hd H. apply IZR_lt in Hb, Hd. apply IZR_le in H.
  rewrite !mult_IZR in H.
  apply (Rmult_le_reg_r (IZR b * IZR d)); [nra |].
  replace (IZR a / IZR b * (IZR b * IZR d)) with (IZR a * IZR d)
    by (field; lra).
  replace (IZR c / IZR d * (IZR b * IZR d)) with (IZR c * IZR b)
    by (field; lra).
  exact H.
Qed.

Lemma fraction_pow (c d : Z) (n : nat) :
  (0 < d)%Z ->
  (IZR c / IZR d) ^ n = IZR (c ^ Z.of_nat n) / IZR (d ^ Z.of_nat n).
Proof.
  intros Hd. apply IZR_lt in Hd.
  unfold Rdiv. now rewrite Rpow_mult_distr, pow_inv, !pow_IZR.
Qed.

(** The months of line 38-39 for a ratio a / b and a base c / d above 1:
    the ceiling is n + 1 when the ratio lies between the n-th and the
    (n+1)-st power of the base. *)
Lemma log_quotient_ceil (a b c d : Z) (n : nat) :
  ((0 <? b)%Z && (0 <? d)%Z && (d <? c)%Z
   && (c ^ Z.of_nat n * b <? a * d ^ Z.of_nat n)%Z
   && (a * d ^ Z.of_nat (S n) <=? c ^ Z.of_nat (S n) * b)%Z)%bool = true ->
  (Math_ceil (Math_log (Fin (IZR a / IZR b))
              / Math_log (Fin (IZR c / IZR d))))%js
  = Fin (IZR (Z.of_nat (S n))).
Proof.
  intros H. repeat (apply andb_true_iff in H; destruct H as [H ?]).
  match goal with
  | Hb : (0 <? b)%Z = true, Hd : (0 <? d)%Z = true, Hc : (d <? c)%Z = true,
    Hlow : (_ <? _)%Z = true, Hup : (_ <=? _)%Z = true |- _ =>
      apply Z.ltb_lt in Hb, Hd, Hc, Hlow; apply Z.leb_le in Hup
  end.
  set (x := IZR a / IZR b). set (y := IZR c / IZR d).
  assert (Hy : 1 < y).
  { unfold y. replace 1 with (IZR 1 / IZR 1) by (simpl; lra).
    apply fraction_lt; lia. }
  assert (Hden : forall k : nat, (0 < d ^ Z.of_nat k)%Z)
    by (intros k; apply Z.pow_pos_nonneg; lia).
  assert (Hlow : y ^ n < x).
  { unfold x, y. rewrite fraction_pow by lia.
    apply fraction_lt; [apply Hden | lia | lia]. }
  assert (Hup : x <= y ^ S n).
  { unfold x, y. rewrite fraction_pow by lia.
    apply fraction_le; [lia | apply Hden | lia]. }
  assert (Hx : 0 < x).
  { apply Rlt_trans with (y ^ n); [apply pow_lt; lra | exact Hlow]. }
  assert (Hln : 0 < ln y) by (rewrite <- ln_1; apply ln_increasing; lra).
  rewrite !Math_log_pos by lra. rewrite div_Fin by lra.
  cbn [Math_ceil]. do 2 f_equal. apply Zceil_eq.
  rewrite <- INR_IZR_INZ, S_INR.
  assert (Hlnlow : INR n * ln y < ln x).
  { rewrite <- ln_pow by lra. apply ln_increasing; [apply pow_lt; lra |].
    exact Hlow. }
  assert (Hlnup : ln x <= (INR n + 1) * ln y).
  { rewrite <- S_INR, <- ln_pow by lra.
    apply ln_monotone; [exact Hx | exact Hup]. }
  split.
  - apply (Rmult_lt_reg_r (ln y)); [exact Hln |].
    unfold Rdiv. rewrite Rmult_assoc, Rinv_l by lra. lra.
  - apply (Rmult_le_reg_r (ln y)); [exact Hln |].
    unfold Rdiv. rewrite Rmult_assoc, Rinv_l by lra. lra.
Qed.

(** With a positive ratio and a base above 1 the result is a finite
    number. *)
Lemma log_quotient_finite (a b c d : Z) :
  ((0 <? a)%Z && (0 <? b)%Z && (0 <? d)%Z && (d <? c)%Z)%bool = true ->
  (Math_ceil (Math_log (Fin (IZR a / IZR b))
              / Math_log (Fin (IZR c / IZR d))))%js
  = Fin (IZR (Zceil (ln (IZR a / IZR b) / ln (IZR c / IZR d)))).
Proof.
  intros H. repeat (apply andb_true_iff in H; destruct H as [H ?]).
  match goal with
  | Ha : (0 <? a)%Z = true, Hb : (0 <? b)%Z = true,
    Hd : (0 <? d)%Z = true, Hc : (d <? c)%Z = true |- _ =>
      apply Z.ltb_lt in Ha, Hb, Hd, Hc
  end.
  assert (Hx : 0 < IZR a / IZR b)
    by (apply Rdiv_lt_0_compat; apply IZR_lt; lia).
  assert (Hy : 1 < IZR c / IZR d).
  { replace 1 with (IZR 1 / IZR 1) by (simpl; lra).
    apply fraction_lt; lia. }
  assert (Hln : 0 < ln (IZR c / IZR d))
    by (rewrite <- ln_1; apply ln_increasing; lra).
  rewrite !Math_log_pos by lra. rewrite div_Fin by lra. reflexivity.
Qed.

(** Evaluation of [Binary64.calculatePayoffTime] past the guard: the
    comparison and the two arguments of [Math.log] are computed on
    binary64 numbers, the ceiling follows from [log_quotient_ceil]. *)
Ltac binary64_past_guard :=
  unfold Binary64.calculatePayoffTime; cbv zeta;
  match goal with
  | |- context [if ?guard then _ else _] =>
      replace guard with false by (vm_compute; reflexivity)
  end;
  repeat match goal with
  | |- context [Binary64.value ?x] =>
      let sf := eval vm_compute in (Prim2SF x) in
      lazymatch sf with
      | S754_finite ?s ?m ?e =>
          rewrite (value_finite x s m e) by (vm_compute; reflexivity)
      end
  end.

Ltac binary64_months n :=
  binary64_past_guard;
  apply (log_quotient_ceil _ _ _ _ n); vm_compute; reflexivity.

(** ** Months to payoff *)

(** X30.  At balance 4000, rate 15 and payment 50 the payment equals the
    interest of the first month.  In exact arithmetic the guard of line 37
    holds and the function returns [Infinity]; on binary64 numbers the
    product 4000 * (15 / 100 / 12) rounds below 50, the guard is skipped
    and the function returns a finite number of months. *)
Theorem tied_card_guard_skipped :
  payment tiedCard 0 = balance tiedCard * monthlyRate tiedCard
  /\ calculatePayoffTime tiedCard 0 = Infinity
  /\ (Binary64.minimumPayment Binary64.tiedCard + 0
      <=? Binary64.balance Binary64.tiedCard
          * (Binary64.interestRate Binary64.tiedCard / 100 / 12))%float
     = false
  /\ is_finite (Binary64.calculatePayoffTime Binary64.tiedCard 0).
Proof.
  assert (H : payment tiedCard 0 = balance tiedCard * monthlyRate tiedCard)
    by (unfold payment, monthlyRate; simpl; lra).
  split; [exact H |].
  split; [apply calculatePayoffTime_guard; lra |].
  split; [vm_compute; reflexivity |].
  binary64_past_guard.
  rewrite log_quotient_finite; [exact I | vm_compute; reflexivity].
Qed.

(** Away from a tie the two agree: the sample credit card with 250 extra
    takes 15 months. *)
Lemma mockCreditCard_binary64 :
  Binary64.calculatePayoffTime Binary64.mockCreditCard 250 = Fin 15
  /\ calculatePayoffTime mockCreditCard 250 = Fin 15.
Proof.
  split.
  - change (Fin 15) with (Fin (IZR (Z.of_nat 15))).
    binary64_months 14%nat.
  - rewrite calculatePayoffTime_convergent;
      [| simpl; lra | simpl; lra | unfold monthlyRate, payment; simpl; lra].
    now rewrite mockCreditCard_months.
Qed.

Lemma twoPaymentLoan_months :
  closed_form_months (monthlyRate twoPaymentLoan)
                     (payment twoPaymentLoan 0)
                     (balance twoPaymentLoan) = 2%Z.
Proof.
  change 2%Z with (Z.of_nat 2).
  unfold monthlyRate, payment, twoPaymentLoan.
  cbn [interestRate balance minimumPayment].
  apply closed_form_months_eq; [lra | lra | lra |].
  split; simpl pow; lra.
Qed.

(** In exact arithmetic the function returns the closed form, 2. *)
Lemma twoPaymentLoan_exact : calculatePayoffTime twoPaymentLoan 0 = Fin 2.
Proof.
  rewrite calculatePayoffTime_convergent;
    [| simpl; lra | simpl; lra | unfold monthlyRate, payment; simpl; lra].
  now rewrite twoPaymentLoan_months.
Qed.

(** C2.  At balance 16200, rate 30 and payment 8405 the closed form of
    the claim is exactly 2: two payments clear the debt (8200 is owed
    after the first, nothing after the second) and the month-by-month
    simulation stops after two.  On binary64 numbers the monthly rate is
    0.024999999999999998, the quotient of the logarithms comes out above
    2 and the function returns 3. *)
Theorem two_payment_loan_returns_three :
  Binary64.calculatePayoffTime Binary64.twoPaymentLoan 0 = Fin 3
  /\ closed_form_months (monthlyRate twoPaymentLoan)
                        (payment twoPaymentLoan 0)
                        (balance twoPaymentLoan) = 2%Z
  /\ balance_after 1 (monthlyRate twoPaymentLoan)
                   (payment twoPaymentLoan 0) (balance twoPaymentLoan)
     = 8200
  /\ balance_after 2 (monthlyRate twoPaymentLoan)
                   (payment twoPaymentLoan 0) (balance twoPaymentLoan)
     = 0
  /\ simulate 3 (monthlyRate twoPaymentLoan) (payment twoPaymentLoan 0)
              (balance twoPaymentLoan) = Some 2%nat.
Proof.
  split; [| split; [| split; [| split]]].
  - change (Fin 3) with (Fin (IZR (Z.of_nat 3))).
    binary64_months 2%nat.
  - exact twoPaymentLoan_months.
  - unfold monthlyRate, payment. simpl. lra.
  - unfold monthlyRate, payment. simpl. lra.
  - pose proof (simulate_closed_form (monthlyRate twoPaymentLoan)
                  (payment twoPaymentLoan 0) (balance twoPaymentLoan)
                  ltac:(unfold monthlyRate; simpl; lra)
                  ltac:(simpl; lra)
                  ltac:(unfold monthlyRate, payment; simpl; lra)
                  3%nat) as Hsim.
    rewrite twoPaymentLoan_months in Hsim. apply Hsim. simpl. lia.
Qed.

(** ** Emergency fund: six months of expenses *)

(** X31.  A fund of six months of expenses, on binary64 numbers.  With a
    fund of 3000.66 and expenses of 500.11 a month the quotient is just
    below 6: the box shows, the colour is amber, and the amount the box
    names is 0.  With 3000.96 and 500.16 the quotient rounds to 6: no box,
    and the colour is emerald. *)
Theorem six_months_binary64 :
  Binary64.showsRecommendation 3000.66 500.11 = true
  /\ Binary64.getStatusColor 3000.66 500.11 = "amber"%string
  /\ (Binary64.recommendedShortfall 3000.66 500.11 =? 0)%float = true
  /\ Binary64.showsRecommendation 3000.96 500.16 = false
  /\ Binary64.getStatusColor 3000.96 500.16 = "emerald"%string
  /\ (Binary64.monthsCovered 3000.96 500.16 =? 6)%float = true.
Proof. repeat split; vm_compute; reflexivity. Qed.

(** ** Income against expenses *)

(** With incomes of 1000 and 2000.16 and one expense of 3000.16 the two
    binary64 totals are equal: the checkpoint is incomplete and the card
    is rose.  The checkpoint and the card agree here as well. *)
Lemma cash_flow_tie_binary64 :
  (Binary64.totalIncome [Binary64.mkIncome 1000 true;
                         Binary64.mkIncome 2000.16 true]
   =? Binary64.totalExpenses [3000.16%float])%float = true
  /\ Binary64.positiveCashFlow [Binary64.mkIncome 1000 true;
                                Binary64.mkIncome 2000.16 true]
                               [3000.16%float]
     = "incomplete"%string
  /\ Binary64.netFlowColor [Binary64.mkIncome 1000 true;
                            Binary64.mkIncome 2000.16 true]
                           [3000.16%float]
     = "rose"%string.
Proof. repeat split; vm_compute; reflexivity. Qed.
